(** * MealRec: the meal recommendation engine of [MealRec.py]

    A shallow embedding of class [FoodRecommendationSystem]: the catalog
    ([cuisines], [dishes_by_cuisine], [all_dishes]), the preference store
    ([user_preference]) and the operations that read and update them.

    Conventions of the embedding:
    - Python [int] is [Z]; [len l] is [Z.of_nat (length l)].
    - [self.user_preference['dishes']] is a [gmap string DishStat]; the
      Python dict [dishes_by_cuisine] keeps insertion order, which
      [get_cuisine_for_dish] observes, so it is an association list with
      first-match lookup.
    - methods that mutate [self] return the new system value; methods that
      call [random.sample] thread the state of the random source.
    - [save_user_preference] appends the store it dumps to the list of
      contents written to the preference file.
    - the menu file is the list of its lines; [load_menu] is given both on
      that text and on the records the lines split into. *)

From Stdlib Require Import ZArith Ascii String Permutation Sorted Lia.
From stdpp Require Import gmap strings pretty list fin_maps sorting.

Local Open Scope string_scope.
Local Open Scope list_scope.
Local Open Scope nat_scope.

(** ** Data model *)

Record DishStat := mkDishStat {
  selection_count : Z;
  recommendation_count : Z
}.

Record UserPreference := mkUserPreference {
  dishes : gmap string DishStat;
  total_selections : Z
}.

Record FoodRecommendationSystem := mkSystem {
  cuisines : list string;
  dishes_by_cuisine : list (string * list string);
  all_dishes : gset string;
  user_preference : UserPreference;
  preference_file : list UserPreference
}.

(** [{'selection_count': 0, 'recommendation_count': 0}] *)
Definition zero_stat : DishStat := mkDishStat 0 0.

(** [{'dishes': {}, 'total_selections': 0}] *)
Definition empty_preference : UserPreference := mkUserPreference ∅ 0.

Definition with_preference (self : FoodRecommendationSystem)
    (p : UserPreference) : FoodRecommendationSystem :=
  mkSystem (cuisines self) (dishes_by_cuisine self) (all_dishes self)
           p (preference_file self).

Definition with_dishes_by_cuisine (self : FoodRecommendationSystem)
    (d : list (string * list string)) : FoodRecommendationSystem :=
  mkSystem (cuisines self) d (all_dishes self)
           (user_preference self) (preference_file self).

(** ** The ordered dictionary [dishes_by_cuisine] *)

Module Dict.

(** [d.get(k)]; [k in d] is [is_Some (get k d)]. *)
Fixpoint get (k : string) (d : list (string * list string))
    : option (list string) :=
  match d with
  | [] => None
  | (k', v) :: d' => if decide (k = k') then Some v else get k d'
  end.

(** [d[k]] on a [defaultdict(list)]: a missing key is inserted with the
    empty list, at the end of the insertion order, and that list is the
    value of the expression. *)
Definition getitem_default (k : string) (d : list (string * list string))
    : list string * list (string * list string) :=
  match get k d with
  | Some v => (v, d)
  | None => ([], d ++ [(k, [])])
  end.

(** [d[k].append(x)] on a [defaultdict(list)] *)
Fixpoint append_to (k x : string) (d : list (string * list string))
    : list (string * list string) :=
  match d with
  | [] => [(k, [x])]
  | (k', v) :: d' =>
      if decide (k = k') then (k', v ++ [x]) :: d'
      else (k', v) :: append_to k x d'
  end.

Definition keys (d : list (string * list string)) : list string :=
  d.*1.

End Dict.

(** ** Strings

    A Python [str] is the [string] of its bytes in UTF-8, so the comma and
    the other ASCII characters are single bytes below 128 and no byte of
    another character is one of them.

    [str.lower] is a built-in; the two functions that call it,
    [check_cuisine_exists] and [get_cuisine_for_dish], are defined for an
    arbitrary lowering function [str_lower] (suffix [_by]), and what is
    proved of them for every [str_lower] holds of the code.  [lower] below
    is [str.lower] on ASCII text (it folds A-Z and leaves every other byte);
    the functions under their plain names are the instances at [lower], for
    catalogs and queries of ASCII text. *)

Definition lower_ascii (c : ascii) : ascii :=
  let n := nat_of_ascii c in
  if (65 <=? n)%nat && (n <=? 90)%nat then ascii_of_nat (n + 32) else c.

Fixpoint lower (s : string) : string :=
  match s with
  | EmptyString => EmptyString
  | String c s' => String (lower_ascii c) (lower s')
  end.

(** ** Outcomes: a call returns a value or raises *)

Inductive exn := ValueError.

Inductive outcome (A : Type) :=
  | Returns (a : A)
  | Raises (e : exn).
Arguments Returns {A} a.
Arguments Raises {A} e.

#[global] Instance outcome_bind : MBind outcome := λ A B k m,
  match m with
  | Returns a => k a
  | Raises e => Raises e
  end.

(** ** The random source

    The state of the generator is the list of raw draws it will deliver;
    an exhausted generator delivers 0. *)

Definition Rng := list nat.

Definition next_draw (g : Rng) : nat * Rng :=
  match g with
  | [] => (0%nat, [])
  | r :: g' => (r, g')
  end.

(** Selection without replacement: [k] times, take the element at a drawn
    position out of what is left of the population. *)
Fixpoint draw (k : nat) (population : list string) (g : Rng)
    : list string * Rng :=
  match k with
  | O => ([], g)
  | S k' =>
      let '(r, g1) := next_draw g in
      let i := (r mod length population)%nat in
      match population !! i with
      | None => ([], g1)
      | Some x =>
          let '(rest, g2) := draw k' (delete i population) g1 in
          (x :: rest, g2)
      end
  end.

(** [random.sample(population, k)]: [ValueError] when [k] is negative or
    larger than the population. *)
Definition random_sample (population : list string) (k : Z) (g : Rng)
    : outcome (list string * Rng) :=
  if decide (k < 0 ∨ Z.of_nat (length population) < k)%Z
  then Raises ValueError
  else Returns (draw (Z.to_nat k) population g).

(** ** Loading the catalog

    [load_menu] over the records of the menu file, each non-empty line
    already stripped and split at its comma into [(cuisine, dish)]; the
    reading of the file and the splitting are not modelled. *)

Definition load_menu_record (self : FoodRecommendationSystem)
    (record : string * string) : FoodRecommendationSystem :=
  let '(cuisine, dish) := record in
  mkSystem
    (if decide (cuisine ∈ cuisines self) then cuisines self
     else cuisines self ++ [cuisine])
    (Dict.append_to cuisine dish (dishes_by_cuisine self))
    ({[dish]} ∪ all_dishes self)
    (user_preference self)
    (preference_file self).

Definition load_menu (self : FoodRecommendationSystem)
    (records : list (string * string)) : FoodRecommendationSystem :=
  foldl load_menu_record
    (mkSystem [] [] ∅ (user_preference self) (preference_file self))
    records.

(** ** The preference store *)

(** [save_user_preference]: the whole store is dumped to the file. *)
Definition save_user_preference (self : FoodRecommendationSystem)
    : FoodRecommendationSystem :=
  mkSystem (cuisines self) (dishes_by_cuisine self) (all_dishes self)
           (user_preference self)
           (preference_file self ++ [user_preference self]).

(** [load_user_preference]: the last content written to the preference
    file when there is one; otherwise a zeroed entry for every dish of the
    menu, saved at once. *)
Definition fresh_preference (all : gset string) : UserPreference :=
  mkUserPreference (gset_to_gmap zero_stat all) 0.

Definition load_user_preference (self : FoodRecommendationSystem)
    : FoodRecommendationSystem :=
  match last (preference_file self) with
  | Some p => with_preference self p
  | None =>
      save_user_preference
        (with_preference self (fresh_preference (all_dishes self)))
  end.

Definition update_user_preference (self : FoodRecommendationSystem)
    (selected_dish : string) : FoodRecommendationSystem :=
  if decide (selected_dish ∈ all_dishes self) then
    let p := user_preference self in
    let d1 :=
      match dishes p !! selected_dish with
      | None => <[selected_dish := zero_stat]> (dishes p)
      | Some _ => dishes p
      end in
    let d2 :=
      match d1 !! selected_dish with
      | Some st =>
          <[selected_dish :=
              mkDishStat (selection_count st + 1) (recommendation_count st)]> d1
      | None => d1
      end in
    save_user_preference
      (with_preference self (mkUserPreference d2 (total_selections p + 1)))
  else self.

Definition reset_user_preference (self : FoodRecommendationSystem)
    : FoodRecommendationSystem :=
  save_user_preference (with_preference self empty_preference).

(** One turn of the loop of [update_recommendation_count]. *)
Definition count_recommendation (d : gmap string DishStat) (dish : string)
    : gmap string DishStat :=
  match d !! dish with
  | Some st =>
      <[dish := mkDishStat (selection_count st) (recommendation_count st + 1)]> d
  | None => d
  end.

Definition update_recommendation_count (self : FoodRecommendationSystem)
    (recommended_dishes : list string) : FoodRecommendationSystem :=
  let p := user_preference self in
  save_user_preference
    (with_preference self
       (mkUserPreference (foldl count_recommendation (dishes p) recommended_dishes)
                         (total_selections p))).

(** ** Cold start: the three priority lists *)

Definition is_never_recommended (d : gmap string DishStat) (dish : string)
    : Prop :=
  match d !! dish with
  | Some st => recommendation_count st = 0%Z
  | None => False
  end.

Definition is_recommended_not_selected (d : gmap string DishStat)
    (dish : string) : Prop :=
  match d !! dish with
  | Some st => (recommendation_count st > 0)%Z ∧ selection_count st = 0%Z
  | None => False
  end.

#[global] Instance is_never_recommended_dec d dish :
  Decision (is_never_recommended d dish).
Proof. unfold is_never_recommended. destruct (d !! dish); apply _. Defined.

#[global] Instance is_recommended_not_selected_dec d dish :
  Decision (is_recommended_not_selected d dish).
Proof. unfold is_recommended_not_selected. destruct (d !! dish); apply _. Defined.

Definition never_recommended (d : gmap string DishStat)
    (available_dishes : list string) : list string :=
  filter (is_never_recommended d) available_dishes.

Definition recommended_not_selected (d : gmap string DishStat)
    (available_dishes : list string) : list string :=
  filter (is_recommended_not_selected d) available_dishes.

Definition other_dishes (d : gmap string DishStat)
    (available_dishes : list string) : list string :=
  filter (λ dish, (dish ∉ never_recommended d available_dishes)
                  ∧ (dish ∉ recommended_not_selected d available_dishes))
         available_dishes.

Definition len {A} (l : list A) : Z := Z.of_nat (length l).

(** The [else] branch of the cold start: sampling from the three lists. *)
Definition sample_prioritized (nr rns other : list string) (count : Z)
    (g : Rng) : outcome (list string * Rng) :=
  let num_never := Z.min (len nr) (count - 1) in
  '(result, g) ← (if decide (num_never > 0)%Z
                  then random_sample nr num_never g
                  else Returns ([], g));
  let remaining_count := (count - len result)%Z in
  '(result, g) ← (if decide ((remaining_count > 0)%Z ∧ rns ≠ [])
                  then
                    let num_rec_not_sel := Z.min (len rns) remaining_count in
                    ('(s, g) ← random_sample rns num_rec_not_sel g;
                     Returns (result ++ s, g))
                  else Returns (result, g));
  let remaining_count := (count - len result)%Z in
  if decide ((remaining_count > 0)%Z ∧ other ≠ [])
  then
    '(s, g) ← random_sample other (Z.min (len other) remaining_count) g;
    Returns (result ++ s, g)
  else Returns (result, g).

Definition cold_start (d : gmap string DishStat)
    (available_dishes : list string) (count : Z) (g : Rng)
    : outcome (list string * Rng) :=
  let nr := never_recommended d available_dishes in
  let rns := recommended_not_selected d available_dishes in
  let other := other_dishes d available_dishes in
  let prioritized_dishes := nr ++ rns ++ other in
  if decide (len prioritized_dishes ≤ count)%Z
  then Returns (prioritized_dishes, g)
  else sample_prioritized nr rns other count g.

(** ** Warm phase: [list.sort(key=...)]

    Keys are pairs of integers compared as Python compares tuples.  The sort
    is stable: entries with equal keys keep their relative order. *)

Definition key_le (a b : Z * Z) : bool :=
  (a.1 <? b.1)%Z || ((a.1 =? b.1)%Z && (a.2 <=? b.2)%Z).

Section sort.
Context {A : Type} (key : A → Z * Z).

Fixpoint sort_insert (x : A) (l : list A) : list A :=
  match l with
  | [] => [x]
  | y :: l' =>
      if key_le (key x) (key y) then x :: y :: l'
      else y :: sort_insert x l'
  end.

Fixpoint sort_by (l : list A) : list A :=
  match l with
  | [] => []
  | x :: l' => sort_insert x (sort_by l')
  end.

Definition key_ordered (x y : A) : Prop := key_le (key x) (key y) = true.
End sort.

(** [lambda x: (-x[1]['selection_count'], x[1]['recommendation_count'])] *)
Definition by_selection (x : string * DishStat) : Z * Z :=
  (- selection_count x.2, recommendation_count x.2)%Z.

(** [lambda x: (x[1]['recommendation_count'], -x[1]['selection_count'])] *)
Definition by_recommendation (x : string * DishStat) : Z * Z :=
  (recommendation_count x.2, - selection_count x.2)%Z.

(** [self.user_preference['dishes'].get(dish, {'selection_count': 0,
    'recommendation_count': 0})] *)
Definition stat_of (d : gmap string DishStat) (dish : string) : DishStat :=
  default zero_stat (d !! dish).

Definition all_cuisine_dishes (d : gmap string DishStat)
    (available_dishes : list string) : list (string * DishStat) :=
  sort_by by_selection ((λ dish, (dish, stat_of d dish)) <$> available_dishes).

Definition high_frequency (d : gmap string DishStat)
    (available_dishes : list string) : list string :=
  (take 2 (all_cuisine_dishes d available_dishes)).*1.

Definition remaining_dishes (d : gmap string DishStat)
    (available_dishes : list string) : list (string * DishStat) :=
  sort_by by_recommendation (drop 2 (all_cuisine_dishes d available_dishes)).

Definition low_frequency (d : gmap string DishStat)
    (available_dishes : list string) : list string :=
  (take 5 (remaining_dishes d available_dishes)).*1.

Definition warm (d : gmap string DishStat) (available_dishes : list string)
    (g : Rng) : outcome (list string * Rng) :=
  let recommendations :=
    high_frequency d available_dishes ++ low_frequency d available_dishes in
  if decide (len recommendations < 7)%Z then
    let remaining_count := (7 - len recommendations)%Z in
    let remaining_pool := filter (λ dish, dish ∉ recommendations) available_dishes in
    if decide (remaining_pool ≠ [] ∧ (remaining_count > 0)%Z) then
      if decide (len remaining_pool ≤ remaining_count)%Z
      then Returns (recommendations ++ remaining_pool, g)
      else
        '(s, g) ← random_sample remaining_pool remaining_count g;
        Returns (recommendations ++ s, g)
    else Returns (recommendations, g)
  else Returns (recommendations, g).

(** ** [get_recommendations_by_cuisine] *)

Definition get_recommendations_by_cuisine (self : FoodRecommendationSystem)
    (cuisine : string) (count : Z) (g : Rng)
    : outcome (list string * FoodRecommendationSystem * Rng) :=
  match Dict.get cuisine (dishes_by_cuisine self) with
  | None => Returns ([], self, g)
  | Some available_dishes =>
      if decide (available_dishes = []) then Returns ([], self, g)
      else
        let p := user_preference self in
        if decide (total_selections p < 10)%Z then
          '(result, g) ← cold_start (dishes p) available_dishes count g;
          Returns (result, update_recommendation_count self result, g)
        else
          '(recommendations, g) ← warm (dishes p) available_dishes g;
          Returns (take 7 recommendations,
                   update_recommendation_count self recommendations, g)
  end.

(** ** Lookup helpers *)

Section str_lower.
Variable str_lower : string → string.

Definition check_cuisine_exists_by (self : FoodRecommendationSystem)
    (cuisine : string) : bool :=
  bool_decide (Exists (λ cuisine_name, str_lower cuisine_name = str_lower cuisine)
                      (cuisines self)).

Fixpoint cuisine_for_dish_by (items : list (string * list string))
    (dish : string) : option string :=
  match items with
  | [] => None
  | (cuisine, menu) :: items' =>
      if decide (Exists (λ menu_dish, dish = str_lower menu_dish) menu)
      then Some cuisine
      else cuisine_for_dish_by items' dish
  end.

Definition get_cuisine_for_dish_by (self : FoodRecommendationSystem)
    (dish : string) : option string :=
  cuisine_for_dish_by (dishes_by_cuisine self) dish.

End str_lower.

Definition check_cuisine_exists (self : FoodRecommendationSystem)
    (cuisine : string) : bool :=
  check_cuisine_exists_by lower self cuisine.

(** [check_dish_exists(dish, cuisine=None)]; [if cuisine:] is false for
    [None] and for the empty string. *)
Definition check_dish_exists (self : FoodRecommendationSystem)
    (dish : string) (cuisine : option string)
    : bool * FoodRecommendationSystem :=
  match cuisine with
  | Some c =>
      if decide (c = "") then (bool_decide (dish ∈ all_dishes self), self)
      else
        let '(ds, d') := Dict.getitem_default c (dishes_by_cuisine self) in
        (bool_decide (dish ∈ ds), with_dishes_by_cuisine self d')
  | None => (bool_decide (dish ∈ all_dishes self), self)
  end.

Definition cuisine_for_dish_in (items : list (string * list string))
    (dish : string) : option string :=
  cuisine_for_dish_by lower items dish.

Definition get_cuisine_for_dish (self : FoodRecommendationSystem)
    (dish : string) : option string :=
  get_cuisine_for_dish_by lower self dish.

(** ** Start-up and the reachable systems *)

(** [__init__] and [initialize] of a process that finds [file] on disk and
    reads [records] from the menu. *)
Definition start (file : list UserPreference) (records : list (string * string))
    : FoodRecommendationSystem :=
  load_user_preference (load_menu (mkSystem [] [] ∅ empty_preference file) records).

Inductive reachable : FoodRecommendationSystem → Prop :=
  | reachable_first_run records :
      reachable (start [] records)
  | reachable_next_run s records :
      reachable s → reachable (start (preference_file s) records)
  | reachable_recommend s cuisine count g r s' g' :
      reachable s →
      get_recommendations_by_cuisine s cuisine count g = Returns (r, s', g') →
      reachable s'
  | reachable_select s dish :
      reachable s → reachable (update_user_preference s dish)
  | reachable_reset s :
      reachable s → reachable (reset_user_preference s)
  | reachable_check_dish s dish cuisine :
      reachable s → reachable (check_dish_exists s dish cuisine).2.

(** [sum(stat['selection_count'] for stat in dishes.values())] *)
Definition sum_selection_count (d : gmap string DishStat) : Z :=
  map_fold (λ _ st acc, selection_count st + acc)%Z 0%Z d.

Definition totals_agree (p : UserPreference) : Prop :=
  total_selections p = sum_selection_count (dishes p).

(** How many times [dish] occurs in a list of dishes. *)
Definition occurrences (dish : string) (l : list string) : Z :=
  len (filter (λ x, x = dish) l).

(** The lookup of a cuisine for a dish as the specification words it: the
    exact catalog entry against the lowercased query. *)
Fixpoint cuisine_for_dish_exact_vs_lowered (items : list (string * list string))
    (dish : string) : option string :=
  match items with
  | [] => None
  | (cuisine, menu) :: items' =>
      if decide (Exists (λ menu_dish, menu_dish = lower dish) menu)
      then Some cuisine
      else cuisine_for_dish_exact_vs_lowered items' dish
  end.

(** ** Concrete systems *)

Definition default_menu : list (string * string) :=
  [("Chinese Cuisine", "Dumplings");
   ("Chinese Cuisine", "Tomato and Egg Noodles");
   ("Western Cuisine", "Steak");
   ("Western Cuisine", "Spaghetti");
   ("Japanese Cuisine", "Sushi")].

(** The first run on the default menu. *)
Definition default_system : FoodRecommendationSystem := start [] default_menu.

(** A menu with one cuisine of [n] dishes "d1", "d2", ... *)
Definition numbered_dishes (n : nat) : list string :=
  (λ i : nat, String.append "d" (pretty i)) <$> seq 1 n.

Definition house_menu (n : nat) : list (string * string) :=
  (λ dish, ("House", dish)) <$> numbered_dishes n.

Definition house_system (n : nat) : FoodRecommendationSystem :=
  start [] (house_menu n).

(** The default system after a reset, and after a reset followed by the
    choice of the second Chinese dish. *)
Definition after_reset : FoodRecommendationSystem :=
  reset_user_preference default_system.

Definition after_reset_and_choice : FoodRecommendationSystem :=
  update_user_preference after_reset "Tomato and Egg Noodles".

(** [dish] selected [n] times in a row. *)
Fixpoint select_times (n : nat) (dish : string) (s : FoodRecommendationSystem)
    : FoodRecommendationSystem :=
  match n with
  | O => s
  | S n' => select_times n' dish (update_user_preference s dish)
  end.

Definition result_of {A} (o : outcome (list string * A * Rng))
    : option (list string) :=
  match o with Returns (r, _, _) => Some r | Raises _ => None end.

(** ** The menu file as text

    The file is the list of its lines, each with its line end, as the loop
    [for line in file] sees them.  The text is ASCII: [isspace], and with it
    [strip], is [str.isspace] on the ASCII characters only, and what is
    proved of the text of a menu assumes lines of ASCII characters
    ([file_line], [plain_text]). *)

(** An ASCII character that is no line break. *)
Definition plain_char (c : ascii) : bool :=
  let n := nat_of_ascii c in
  (n <? 128) && negb (n =? 10) && negb (n =? 13).

(** ASCII text without a line break. *)
Definition plain_text (s : string) : Prop :=
  forallb plain_char (list_ascii_of_string s) = true.

(** [str.isspace], on an ASCII character *)
Definition isspace (c : ascii) : bool :=
  let n := nat_of_ascii c in
  ((9 <=? n) && (n <=? 13)) || ((28 <=? n) && (n <=? 32)).

Fixpoint lstrip_chars (l : list ascii) : list ascii :=
  match l with
  | [] => []
  | c :: l' => if isspace c then lstrip_chars l' else l
  end.

Definition strip_chars (l : list ascii) : list ascii :=
  reverse (lstrip_chars (reverse (lstrip_chars l))).

(** [line.strip()] *)
Definition strip (line : string) : string :=
  string_of_list_ascii (strip_chars (list_ascii_of_string line)).

Fixpoint split_chars (l : list ascii) : list (list ascii) :=
  match l with
  | [] => [[]]
  | c :: l' =>
      if decide (c = ","%char) then [] :: split_chars l'
      else match split_chars l' with
           | part :: parts => (c :: part) :: parts
           | [] => [[c]]
           end
  end.

(** [line.split(',')] *)
Definition split_comma (line : string) : list string :=
  string_of_list_ascii <$> split_chars (list_ascii_of_string line).

(** One turn of the loop of [load_menu].  The assignment
    [cuisine, dish = line.split(',')] raises [ValueError] unless the split
    has exactly two parts. *)
Definition load_menu_line (self : FoodRecommendationSystem) (line : string)
    : outcome FoodRecommendationSystem :=
  let line := strip line in
  if decide (line = "") then Returns self
  else
    match split_comma line with
    | [cuisine; dish] => Returns (load_menu_record self (cuisine, dish))
    | _ => Raises ValueError
    end.

Fixpoint load_menu_lines (self : FoodRecommendationSystem) (lines : list string)
    : outcome FoodRecommendationSystem :=
  match lines with
  | [] => Returns self
  | line :: lines' =>
      self ← load_menu_line self line;
      load_menu_lines self lines'
  end.

(** [load_menu] on the text of the menu file. *)
Definition load_menu_file (self : FoodRecommendationSystem)
    (lines : list string) : outcome FoodRecommendationSystem :=
  load_menu_lines
    (mkSystem [] [] ∅ (user_preference self) (preference_file self)) lines.

Definition newline : string := String (ascii_of_nat 10) EmptyString.

(** The lines [create_default_menu] writes. *)
Definition default_menu_file : list string :=
  ["True" +:+ newline;
   "Chinese Cuisine,Dumplings" +:+ newline;
   "Chinese Cuisine,Tomato and Egg Noodles" +:+ newline;
   "Western Cuisine,Steak" +:+ newline;
   "Western Cuisine,Spaghetti" +:+ newline;
   "Japanese Cuisine,Sushi" +:+ newline].

(** A line as the loop over the file yields it: text without a line break
    inside, with or without the line end that closes it. *)
Definition file_line (line : string) : Prop :=
  ∃ body, plain_text body ∧ (line = body ∨ line = body +:+ newline).

(** A record written as a line of the menu file; it is one line of the file
    when neither field has a line break ([plain_text]). *)
Definition menu_line (record : string * string) : string :=
  record.1 +:+ "," +:+ record.2 +:+ newline.

(** How many commas a line has. *)
Definition commas (line : string) : nat :=
  length (filter (λ c, c = ","%char) (list_ascii_of_string line)).

(** No white space at the start, at the end. *)
Definition starts_clean (s : string) : Prop :=
  match list_ascii_of_string s with
  | [] => True
  | c :: _ => isspace c = false
  end.

Definition ends_clean (s : string) : Prop :=
  match reverse (list_ascii_of_string s) with
  | [] => True
  | c :: _ => isspace c = false
  end.

(** [__init__] and [initialize] on what is on disk: the menu file, if there
    is one (the default menu is written when there is none), and the
    preference file.  The question about a reset is left to the caller. *)
Definition initialize (menu_file : option (list string))
    (file : list UserPreference) : outcome FoodRecommendationSystem :=
  let lines := default default_menu_file menu_file in
  self ← load_menu_file (mkSystem [] [] ∅ empty_preference file) lines;
  Returns (load_user_preference self).

(** ** [get_random_cuisines] *)

Definition get_random_cuisines (self : FoodRecommendationSystem) (count : Z)
    (g : Rng) : outcome (list string * Rng) :=
  if decide (len (cuisines self) ≤ count)%Z then Returns (cuisines self, g)
  else random_sample (cuisines self) count g.

(** ** Steps and well-formed catalogs *)

(** One call that may change the counters (a reset is not one). *)
Inductive counting_step
    : FoodRecommendationSystem → FoodRecommendationSystem → Prop :=
  | step_recommend s cuisine count g r s' g' :
      get_recommendations_by_cuisine s cuisine count g = Returns (r, s', g') →
      counting_step s s'
  | step_select s dish :
      counting_step s (update_user_preference s dish)
  | step_check_dish s dish cuisine :
      counting_step s (check_dish_exists s dish cuisine).2.

(** What [load_menu] establishes of the three parts of the catalog. *)
Definition catalog_ok (s : FoodRecommendationSystem) : Prop :=
  NoDup (cuisines s)
  ∧ (∀ c, c ∈ cuisines s
          ↔ ∃ ds, Dict.get c (dishes_by_cuisine s) = Some ds ∧ ds ≠ [])
  ∧ (∀ dish, dish ∈ all_dishes s
             ↔ ∃ c ds, Dict.get c (dishes_by_cuisine s) = Some ds ∧ dish ∈ ds).

(** Closes a statement about a concrete run by evaluating it. *)
Ltac by_evaluation := vm_compute; repeat split; congruence.

(** * Properties *)

(** ** Sanity checks on concrete runs *)

Example default_catalog :
  dishes_by_cuisine default_system =
    [("Chinese Cuisine", ["Dumplings"; "Tomato and Egg Noodles"]);
     ("Western Cuisine", ["Steak"; "Spaghetti"]);
     ("Japanese Cuisine", ["Sushi"])]
  ∧ cuisines default_system =
    ["Chinese Cuisine"; "Western Cuisine"; "Japanese Cuisine"].
Proof. split; reflexivity. Qed.

Example default_chinese :
  result_of (get_recommendations_by_cuisine default_system "Chinese Cuisine" 5 [])
  = Some ["Dumplings"; "Tomato and Egg Noodles"].
Proof. by_evaluation. Qed.

Example house_six :
  Dict.get "House" (dishes_by_cuisine (house_system 6))
  = Some ["d1"; "d2"; "d3"; "d4"; "d5"; "d6"].
Proof. by_evaluation. Qed.

Example house_six_default_count :
  result_of (get_recommendations_by_cuisine (house_system 6) "House" 5 [3; 0; 7; 1])
  = Some ["d4"; "d1"; "d6"; "d3"].
Proof. by_evaluation. Qed.

Example warm_eight :
  result_of (get_recommendations_by_cuisine
               (select_times 10 "d3" (house_system 8)) "House" 5 [])
  = Some ["d3"; "d1"; "d2"; "d4"; "d5"; "d6"; "d7"].
Proof. by_evaluation. Qed.

(** ** The random source *)

Lemma len_nil {A} : len (@nil A) = 0%Z.
Proof. reflexivity. Qed.

Lemma len_app {A} (l k : list A) : len (l ++ k) = (len l + len k)%Z.
Proof. unfold len. rewrite length_app. lia. Qed.

Lemma len_nonneg {A} (l : list A) : (0 ≤ len l)%Z.
Proof. unfold len. lia. Qed.

Lemma len_zero_nil {A} (l : list A) : len l = 0%Z → l = [].
Proof. unfold len. destruct l; simpl; [done | lia]. Qed.

(** [draw] takes [k] elements out of the population, each position at most
    once. *)
Lemma draw_spec (k : nat) : ∀ (population : list string) (g : Rng),
  k ≤ length population →
  length (draw k population g).1 = k
  ∧ ∃ rest, population ≡ₚ (draw k population g).1 ++ rest.
Proof.
  induction k as [|k IH]; intros population g Hk; simpl.
  - split; [done | by exists population].
  - destruct (next_draw g) as [r g1].
    assert (Hlt : r mod length population < length population)
      by (apply Nat.mod_upper_bound; lia).
    destruct (lookup_lt_is_Some_2 population _ Hlt) as [x Hx].
    rewrite Hx.
    specialize (IH (delete (r mod length population) population) g1).
    destruct (draw k (delete (r mod length population) population) g1)
      as [rest g2] eqn:Hd.
    simpl in *.
    destruct IH as [Hlen [left Hperm]].
    { rewrite length_delete by eauto. lia. }
    split; [by rewrite Hlen |].
    exists left. rewrite (delete_Permutation population _ x Hx).
    by rewrite Hperm.
Qed.

(** Every selection without replacement is delivered by some generator. *)
Lemma draw_complete (chosen : list string) : ∀ (population rest : list string),
  population ≡ₚ chosen ++ rest →
  ∃ g, (draw (length chosen) population g).1 = chosen.
Proof.
  induction chosen as [|x chosen IH]; intros population rest Hperm; simpl.
  - by exists [].
  - assert (Hin : x ∈ population) by (rewrite Hperm; left).
    apply list_elem_of_lookup in Hin as [i Hi].
    pose proof (lookup_lt_Some _ _ _ Hi) as Hlt.
    destruct (IH (delete i population) rest) as [g Hg].
    { apply (Permutation_cons_inv (a := x)).
      by rewrite <- (delete_Permutation population i x Hi). }
    exists (i :: g). simpl.
    rewrite Nat.mod_small by done. rewrite Hi.
    destruct (draw (length chosen) (delete i population) g) as [c g2].
    simpl in *. by rewrite Hg.
Qed.

Lemma random_sample_returns population k g :
  (0 ≤ k ≤ len population)%Z →
  random_sample population k g = Returns (draw (Z.to_nat k) population g).
Proof.
  intros Hk. unfold random_sample, len in *.
  destruct (decide _) as [H|H]; [lia | done].
Qed.

Lemma random_sample_spec population k g s g' :
  random_sample population k g = Returns (s, g') →
  len s = k ∧ ∃ rest, population ≡ₚ s ++ rest.
Proof.
  unfold random_sample, len. destruct (decide _) as [H|H]; [done |].
  intros [= Hd].
  destruct (draw_spec (Z.to_nat k) population g) as [Hlen Hperm]; [lia |].
  rewrite Hd in Hlen, Hperm. simpl in *. split; [lia | done].
Qed.

(** ** The three priority lists *)

Section split.
Context {A : Type} (P Q : A → Prop).
Context `{!∀ x, Decision (P x), !∀ x, Decision (Q x)}.
Hypothesis exclusive : ∀ x, P x → Q x → False.

Lemma three_way_split (l : list A) :
  filter P l ++ filter Q l ++ filter (λ x, ¬ P x ∧ ¬ Q x) l ≡ₚ l.
Proof using exclusive.
  induction l as [|x l IH]; [done |].
  rewrite !filter_cons.
  destruct (decide (P x)) as [HP|HP].
  - rewrite decide_False by (intros HQ; eauto).
    rewrite decide_False by tauto. simpl. by rewrite IH.
  - destruct (decide (Q x)) as [HQ|HQ].
    + rewrite decide_False by tauto. simpl.
      rewrite <- Permutation_middle. by rewrite IH.
    + rewrite decide_True by tauto.
      rewrite app_assoc, <- Permutation_middle, <- app_assoc.
      by rewrite IH.
Qed.
End split.

Lemma filter_ext_elem_of {A} (P Q : A → Prop)
    `{!∀ x, Decision (P x), !∀ x, Decision (Q x)} (l : list A) :
  (∀ x, x ∈ l → (P x ↔ Q x)) → filter P l = filter Q l.
Proof.
  induction l as [|x l IH]; intros Heq; [done |].
  rewrite !filter_cons.
  assert (Hx : P x ↔ Q x) by (apply Heq; left).
  rewrite IH by (intros y Hy; apply Heq; by right).
  destruct (decide (P x)), (decide (Q x)); tauto.
Qed.

Lemma tiers_exclusive d dish :
  is_never_recommended d dish → is_recommended_not_selected d dish → False.
Proof.
  unfold is_never_recommended, is_recommended_not_selected.
  destruct (d !! dish); [lia | done].
Qed.

Lemma elem_of_never_recommended d ds dish :
  dish ∈ never_recommended d ds ↔ is_never_recommended d dish ∧ dish ∈ ds.
Proof. apply list_elem_of_filter. Qed.

Lemma elem_of_recommended_not_selected d ds dish :
  dish ∈ recommended_not_selected d ds
  ↔ is_recommended_not_selected d dish ∧ dish ∈ ds.
Proof. apply list_elem_of_filter. Qed.

(** The membership tests of the third comprehension amount to the negation
    of the first two conditions. *)
Lemma other_dishes_filter d ds :
  other_dishes d ds =
  filter (λ dish, ¬ is_never_recommended d dish
                  ∧ ¬ is_recommended_not_selected d dish) ds.
Proof.
  unfold other_dishes. apply filter_ext_elem_of. intros x Hx.
  rewrite elem_of_never_recommended, elem_of_recommended_not_selected.
  tauto.
Qed.


Lemma prioritized_permutation d ds :
  never_recommended d ds ++ recommended_not_selected d ds ++ other_dishes d ds
  ≡ₚ ds.
Proof.
  rewrite other_dishes_filter.
  apply three_way_split, tiers_exclusive.
Qed.

Lemma prioritized_length d ds :
  len (never_recommended d ds ++ recommended_not_selected d ds
       ++ other_dishes d ds) = len ds.
Proof. unfold len. by rewrite prioritized_permutation. Qed.

Lemma filter_all {A} (P : A → Prop) `{!∀ x, Decision (P x)} (l : list A) :
  Forall P l → filter P l = l.
Proof.
  induction 1 as [|x l HP _ IH]; [done |].
  by rewrite filter_cons_True, IH.
Qed.

Lemma filter_none {A} (P : A → Prop) `{!∀ x, Decision (P x)} (l : list A) :
  Forall (λ x, ¬ P x) l → filter P l = [].
Proof.
  induction 1 as [|x l HP _ IH]; [done |].
  by rewrite filter_cons_False.
Qed.

(** ** The preference store: counters and their sum *)

Lemma occurrences_nil dish : occurrences dish [] = 0%Z.
Proof. reflexivity. Qed.

Lemma occurrences_cons dish x l :
  occurrences dish (x :: l)
  = ((if decide (x = dish) then 1 else 0) + occurrences dish l)%Z.
Proof.
  unfold occurrences, len. rewrite filter_cons.
  destruct (decide (x = dish)); simpl; lia.
Qed.

Lemma occurrences_nonneg dish l : (0 ≤ occurrences dish l)%Z.
Proof. apply len_nonneg. Qed.



Lemma count_recommendation_lookup d dish x :
  count_recommendation d dish !! x =
  (λ st, mkDishStat (selection_count st)
           (recommendation_count st + (if decide (dish = x) then 1 else 0)))
  <$> d !! x.
Proof.
  unfold count_recommendation.
  destruct (decide (dish = x)) as [->|Hne].
  - destruct (d !! x) as [st|] eqn:Hx; simpl.
    + by rewrite lookup_insert_eq.
    + by rewrite Hx.
  - assert (Hsame : ∀ st : DishStat,
      mkDishStat (selection_count st) (recommendation_count st + 0) = st).
    { intros [s r]. simpl. f_equal. lia. }
    destruct (d !! dish) as [st|] eqn:Hd.
    + rewrite lookup_insert_ne by done.
      destruct (d !! x); simpl; by rewrite ?Hsame.
    + destruct (d !! x); simpl; by rewrite ?Hsame.
Qed.

(** After the loop of [update_recommendation_count], an entry has gained
    one recommendation per occurrence of its dish; no entry is created. *)
Lemma count_recommendations_lookup l : ∀ d x,
  foldl count_recommendation d l !! x =
  (λ st, mkDishStat (selection_count st)
           (recommendation_count st + occurrences x l))
  <$> d !! x.
Proof.
  induction l as [|y l IH]; intros d x; simpl.
  - destruct (d !! x) as [[s r]|]; simpl; [|done].
    rewrite occurrences_nil. do 2 f_equal. lia.
  - rewrite IH, count_recommendation_lookup, occurrences_cons.
    destruct (d !! x) as [[s r]|]; simpl; [|done].
    do 2 f_equal. lia.
Qed.

Lemma sum_selection_count_empty : sum_selection_count ∅ = 0%Z.
Proof. unfold sum_selection_count. by rewrite map_fold_empty. Qed.

Lemma sum_selection_count_insert_fresh d k st :
  d !! k = None →
  sum_selection_count (<[k := st]> d)
  = (selection_count st + sum_selection_count d)%Z.
Proof.
  intros Hk. unfold sum_selection_count.
  rewrite map_fold_insert_L; [done | intros; lia | done].
Qed.

Lemma sum_selection_count_insert d k st :
  sum_selection_count (<[k := st]> d)
  = (selection_count st + sum_selection_count d
     - selection_count (stat_of d k))%Z.
Proof.
  unfold stat_of. destruct (d !! k) as [st0|] eqn:Hk; simpl.
  - rewrite <- insert_delete_eq.
    rewrite sum_selection_count_insert_fresh by apply lookup_delete_eq.
    rewrite <- (insert_delete_id d k st0) at 2 by done.
    rewrite sum_selection_count_insert_fresh by apply lookup_delete_eq.
    lia.
  - rewrite sum_selection_count_insert_fresh by done. lia.
Qed.

Lemma sum_selection_count_zero d :
  map_Forall (λ _ st, selection_count st = 0%Z) d →
  sum_selection_count d = 0%Z.
Proof.
  unfold sum_selection_count.
  apply (map_fold_weak_ind
    (λ r m, map_Forall (λ _ st, selection_count st = 0%Z) m → r = 0%Z)).
  - done.
  - intros i x m r Hi IH Hall.
    apply map_Forall_insert in Hall as [Hx Hm]; [|done].
    rewrite Hx, IH; done.
Qed.

Lemma count_recommendation_sum d dish :
  sum_selection_count (count_recommendation d dish) = sum_selection_count d.
Proof.
  unfold count_recommendation.
  destruct (d !! dish) as [st|] eqn:Hd; [|done].
  rewrite sum_selection_count_insert. unfold stat_of. rewrite Hd. simpl. lia.
Qed.

Lemma count_recommendations_sum l : ∀ d,
  sum_selection_count (foldl count_recommendation d l) = sum_selection_count d.
Proof.
  induction l as [|y l IH]; intros d; simpl; [done |].
  by rewrite IH, count_recommendation_sum.
Qed.

(** ** The stable sort *)

Section sort_facts.
Context {A : Type} (key : A → Z * Z).

Lemma sort_insert_perm x l : sort_insert key x l ≡ₚ x :: l.
Proof.
  induction l as [|y l IH]; simpl; [done |].
  destruct (key_le (key x) (key y)); [done |].
  rewrite IH. apply perm_swap.
Qed.

Lemma sort_by_perm l : sort_by key l ≡ₚ l.
Proof.
  induction l as [|x l IH]; simpl; [done |].
  by rewrite sort_insert_perm, IH.
Qed.

Lemma sort_by_length l : length (sort_by key l) = length l.
Proof. by rewrite sort_by_perm. Qed.

Lemma key_le_total a b : key_le a b = false → key_le b a = true.
Proof. unfold key_le. destruct a, b; simpl. lia. Qed.

Lemma key_le_trans a b c :
  key_le a b = true → key_le b c = true → key_le a c = true.
Proof. unfold key_le. destruct a, b, c; simpl. lia. Qed.

Lemma sort_insert_sorted x l :
  StronglySorted (key_ordered key) l →
  StronglySorted (key_ordered key) (sort_insert key x l).
Proof.
  induction 1 as [|y l Hs IH Hall]; simpl.
  - repeat constructor.
  - destruct (key_le (key x) (key y)) eqn:Hxy.
    + constructor; [by constructor |].
      constructor; [done |].
      eapply Forall_impl; [exact Hall |].
      intros z Hz. by eapply key_le_trans.
    + constructor; [done |].
      rewrite sort_insert_perm. constructor; [|done].
      by apply key_le_total.
Qed.

(** The output is in ascending order of the keys. *)
Lemma sort_by_sorted l : StronglySorted (key_ordered key) (sort_by key l).
Proof.
  induction l as [|x l IH]; simpl; [constructor |].
  by apply sort_insert_sorted.
Qed.

Lemma sort_insert_stable k x l :
  filter (λ y, key y = k) (sort_insert key x l)
  = filter (λ y, key y = k) (x :: l).
Proof.
  induction l as [|y l IH]; simpl; [done |].
  destruct (key_le (key x) (key y)) eqn:Hxy; [done |].
  rewrite (filter_cons _ y), IH, !filter_cons.
  destruct (decide (key y = k)) as [Hy|Hy]; [|done].
  destruct (decide (key x = k)) as [Hx|Hx]; [|done].
  rewrite Hx, Hy in Hxy. unfold key_le in Hxy. lia.
Qed.

(** Entries with the same key keep the order they had in the input. *)
Lemma sort_by_stable k l :
  filter (λ y, key y = k) (sort_by key l) = filter (λ y, key y = k) l.
Proof.
  induction l as [|x l IH]; simpl; [done |].
  by rewrite sort_insert_stable, !filter_cons, IH.
Qed.
End sort_facts.

(** ** The warm phase *)

Lemma all_cuisine_dishes_names d ds : (all_cuisine_dishes d ds).*1 ≡ₚ ds.
Proof.
  unfold all_cuisine_dishes. rewrite sort_by_perm.
  rewrite <- list_fmap_compose. by rewrite list_fmap_id.
Qed.

Lemma all_cuisine_dishes_length d ds :
  length (all_cuisine_dishes d ds) = length ds.
Proof.
  unfold all_cuisine_dishes. by rewrite sort_by_length, length_fmap.
Qed.

Lemma high_frequency_length d ds :
  length (high_frequency d ds) = 2 `min` length ds.
Proof.
  unfold high_frequency.
  by rewrite length_fmap, length_take, all_cuisine_dishes_length.
Qed.

Lemma low_frequency_length d ds :
  length (low_frequency d ds) = 5 `min` (length ds - 2).
Proof.
  unfold low_frequency, remaining_dishes.
  by rewrite length_fmap, length_take, sort_by_length, length_drop,
    all_cuisine_dishes_length.
Qed.

(** The seven picks are taken out of the cuisine's list, each position at
    most once; what is left over is [(drop 5 remaining_dishes)]. *)
Lemma warm_picks_permutation d ds :
  (high_frequency d ds ++ low_frequency d ds)
    ++ (drop 5 (remaining_dishes d ds)).*1 ≡ₚ ds.
Proof.
  unfold high_frequency, low_frequency.
  rewrite <- app_assoc, <- (fmap_app _ (take 5 _)), take_drop.
  unfold remaining_dishes. rewrite sort_by_perm.
  rewrite <- fmap_app, take_drop.
  apply all_cuisine_dishes_names.
Qed.

Lemma warm_picks_length d ds :
  length (high_frequency d ds ++ low_frequency d ds) = 7 `min` length ds.
Proof.
  rewrite length_app, high_frequency_length, low_frequency_length. lia.
Qed.

Lemma warm_pool_empty d ds :
  length ds < 7 →
  filter (λ dish, dish ∉ high_frequency d ds ++ low_frequency d ds) ds = [].
Proof.
  intros Hlt. apply filter_none, Forall_forall. intros x Hx Hn. apply Hn.
  pose proof (warm_picks_permutation d ds) as Hperm.
  assert (Hrest : drop 5 (remaining_dishes d ds) = []).
  { apply drop_ge. unfold remaining_dishes.
    rewrite sort_by_length, length_drop, all_cuisine_dishes_length. lia. }
  rewrite Hrest in Hperm. simpl in Hperm. rewrite app_nil_r in Hperm.
  by rewrite Hperm.
Qed.

(** The warm phase never reaches its random fill: it returns the two
    high-frequency and the (up to) five low-frequency picks, and leaves the
    random source untouched. *)
Lemma warm_returns d ds g :
  warm d ds g = Returns (high_frequency d ds ++ low_frequency d ds, g).
Proof.
  unfold warm.
  destruct (decide (len _ < 7)%Z) as [Hlt|Hge]; [|done].
  rewrite warm_pool_empty.
  - destruct (decide _) as [[Hne _]|_]; done.
  - unfold len in Hlt. rewrite warm_picks_length in Hlt. lia.
Qed.

(** ** The cold start *)

Lemma bind_returns {A B} (a : A) (k : A → outcome B) :
  Returns a ≫= k = k a.
Proof. reflexivity. Qed.

(** Sampling from the three lists always returns; what it returns is taken
    out of the lists (each position at most once), so many from each. *)
Lemma sample_prioritized_spec nr rns other count g :
  ∃ s1 s2 s3 g' rest,
    sample_prioritized nr rns other count g = Returns (s1 ++ s2 ++ s3, g')
    ∧ nr ++ rns ++ other ≡ₚ (s1 ++ s2 ++ s3) ++ rest
    ∧ (∃ r1, nr ≡ₚ s1 ++ r1) ∧ (∃ r2, rns ≡ₚ s2 ++ r2)
    ∧ (∃ r3, other ≡ₚ s3 ++ r3)
    ∧ len s1 = (0 `max` (len nr `min` (count - 1)))%Z
    ∧ len s2 = (0 `max` (len rns `min` (count - len s1)))%Z
    ∧ len s3 = (0 `max` (len other `min` (count - len s1 - len s2)))%Z.
Proof.
  unfold sample_prioritized.
  pose proof (len_nonneg nr) as Hnr. pose proof (len_nonneg rns) as Hrns.
  pose proof (len_nonneg other) as Hother.
  (* never recommended *)
  assert (∃ s1 g1 r1,
    (if decide (len nr `min` (count - 1) > 0)%Z
     then random_sample nr (len nr `min` (count - 1)) g
     else Returns ([], g)) = Returns (s1, g1)
    ∧ nr ≡ₚ s1 ++ r1
    ∧ len s1 = (0 `max` (len nr `min` (count - 1)))%Z)
    as (s1 & g1 & r1 & -> & Hp1 & Hl1).
  { destruct (decide _) as [Hpos|Hneg].
    - rewrite random_sample_returns by lia.
      destruct (draw _ nr g) as [s1 g1] eqn:Hd.
      destruct (random_sample_spec nr (len nr `min` (count - 1)) g s1 g1)
        as [Hl [r1 Hr]].
      { rewrite random_sample_returns by lia. by rewrite Hd. }
      exists s1, g1, r1. repeat split; [done | lia].
    - exists [], g, nr. repeat split; [done | rewrite len_nil; lia]. }
  rewrite bind_returns.
  (* recommended, not selected *)
  assert (∃ s2 g2 r2,
    (if decide ((count - len s1 > 0)%Z ∧ rns ≠ [])
     then '(s, g0) ← random_sample rns (len rns `min` (count - len s1)) g1;
          Returns (s1 ++ s, g0)
     else Returns (s1, g1)) = Returns (s1 ++ s2, g2)
    ∧ rns ≡ₚ s2 ++ r2
    ∧ len s2 = (0 `max` (len rns `min` (count - len s1)))%Z)
    as (s2 & g2 & r2 & -> & Hp2 & Hl2).
  { destruct (decide _) as [[Hpos Hne]|Hneg].
    - rewrite random_sample_returns by lia.
      destruct (draw _ rns g1) as [s2 g2] eqn:Hd.
      destruct (random_sample_spec rns (len rns `min` (count - len s1)) g1 s2 g2)
        as [Hl [r2 Hr]].
      { rewrite random_sample_returns by lia. by rewrite Hd. }
      exists s2, g2, r2. repeat split; [done | lia].
    - exists [], g1, rns. rewrite app_nil_r. repeat split; [done |].
      rewrite len_nil.
      destruct (decide (rns = [])) as [->|Hne]; [unfold len; simpl; lia |].
      assert (¬ (count - len s1 > 0)%Z) by tauto. lia. }
  rewrite bind_returns.
  (* other dishes *)
  assert (∃ s3 g3 r3,
    (if decide ((count - len (s1 ++ s2) > 0)%Z ∧ other ≠ [])
     then '(s, g0) ← random_sample other
                       (len other `min` (count - len (s1 ++ s2))) g2;
          Returns ((s1 ++ s2) ++ s, g0)
     else Returns (s1 ++ s2, g2)) = Returns (s1 ++ s2 ++ s3, g3)
    ∧ other ≡ₚ s3 ++ r3
    ∧ len s3 = (0 `max` (len other `min` (count - len s1 - len s2)))%Z)
    as (s3 & g3 & r3 & -> & Hp3 & Hl3).
  { rewrite len_app.
    destruct (decide _) as [[Hpos Hne]|Hneg].
    - rewrite random_sample_returns by lia.
      destruct (draw _ other g2) as [s3 g3] eqn:Hd.
      destruct (random_sample_spec other
                  (len other `min` (count - (len s1 + len s2))) g2 s3 g3)
        as [Hl [r3 Hr]].
      { rewrite random_sample_returns by lia. by rewrite Hd. }
      exists s3, g3, r3. rewrite bind_returns, <- app_assoc.
      repeat split; [done | lia].
    - exists [], g2, other. rewrite app_nil_r. repeat split; [done |].
      rewrite len_nil.
      destruct (decide (other = [])) as [->|Hne]; [unfold len; simpl; lia |].
      assert (¬ (count - (len s1 + len s2) > 0)%Z) by tauto. lia. }
  exists s1, s2, s3, g3, (r1 ++ r2 ++ r3).
  repeat split; eauto.
  rewrite Hp1, Hp2, Hp3. solve_Permutation.
Qed.

Lemma cold_start_all d ds count g :
  (len ds ≤ count)%Z →
  cold_start d ds count g =
  Returns (never_recommended d ds ++ recommended_not_selected d ds
           ++ other_dishes d ds, g).
Proof.
  intros Hle. unfold cold_start.
  rewrite prioritized_length. by rewrite decide_True.
Qed.

(** With more dishes than [count], the cold start samples; it comes one
    short of [count] when every dish is in the first list. *)
Lemma cold_start_sampled d ds count g :
  (count < len ds)%Z →
  ∃ result g' rest,
    cold_start d ds count g = Returns (result, g')
    ∧ ds ≡ₚ result ++ rest
    ∧ len result =
        if decide (recommended_not_selected d ds = [] ∧ other_dishes d ds = []
                   ∧ (1 ≤ count)%Z)
        then (count - 1)%Z else (0 `max` count)%Z.
Proof.
  intros Hlt. unfold cold_start.
  pose proof (prioritized_length d ds) as Hlen.
  rewrite decide_False by lia.
  destruct (sample_prioritized_spec (never_recommended d ds)
              (recommended_not_selected d ds) (other_dishes d ds) count g)
    as (s1 & s2 & s3 & g' & rest & -> & Hperm & _ & _ & _ & Hl1 & Hl2 & Hl3).
  exists (s1 ++ s2 ++ s3), g', rest. split; [done |].
  split; [by rewrite <- Hperm, prioritized_permutation |].
  rewrite !len_app in *.
  pose proof (len_nonneg (never_recommended d ds)).
  pose proof (len_nonneg (recommended_not_selected d ds)) as Hr.
  pose proof (len_nonneg (other_dishes d ds)) as Ho.
  destruct (decide _) as [(Hrns & Hoth & Hc)|Hn].
  - rewrite Hrns, Hoth in *. unfold len in *. simpl in *. lia.
  - assert ((count < 1)%Z ∨ (0 < len (recommended_not_selected d ds))%Z
            ∨ (0 < len (other_dishes d ds))%Z) as Hcase.
    { destruct (decide (1 ≤ count)%Z); [|lia].
      destruct (decide (len (recommended_not_selected d ds) = 0)%Z) as [H0|];
        [|lia].
      destruct (decide (len (other_dishes d ds) = 0)%Z) as [H1|]; [|lia].
      apply len_zero_nil in H0, H1. tauto. }
    lia.
Qed.

Lemma cold_start_returns d ds count g :
  ∃ result g' rest,
    cold_start d ds count g = Returns (result, g') ∧ ds ≡ₚ result ++ rest.
Proof.
  destruct (decide (len ds ≤ count)%Z) as [Hle|Hgt].
  - eexists _, g, []. split; [by apply cold_start_all |].
    by rewrite app_nil_r, prioritized_permutation.
  - destruct (cold_start_sampled d ds count g) as (r & g' & rest & ? & ? & _);
      [lia |]. eauto.
Qed.

(** ** [get_recommendations_by_cuisine] as a whole *)

Lemma recommend_unknown self cuisine count g :
  Dict.get cuisine (dishes_by_cuisine self) = None →
  get_recommendations_by_cuisine self cuisine count g = Returns ([], self, g).
Proof. intros H. unfold get_recommendations_by_cuisine. by rewrite H. Qed.

Lemma recommend_cold self cuisine count g ds :
  Dict.get cuisine (dishes_by_cuisine self) = Some ds →
  ds ≠ [] →
  (total_selections (user_preference self) < 10)%Z →
  ∃ result g',
    cold_start (dishes (user_preference self)) ds count g = Returns (result, g')
    ∧ get_recommendations_by_cuisine self cuisine count g
      = Returns (result, update_recommendation_count self result, g').
Proof.
  intros Hget Hne Hcold. unfold get_recommendations_by_cuisine.
  rewrite Hget, decide_False, decide_True by done.
  destruct (cold_start_returns (dishes (user_preference self)) ds count g)
    as (result & g' & _ & -> & _).
  by exists result, g'.
Qed.

Lemma take_warm_picks d ds :
  take 7 (high_frequency d ds ++ low_frequency d ds)
  = high_frequency d ds ++ low_frequency d ds.
Proof. apply take_ge. rewrite warm_picks_length. lia. Qed.

Lemma recommend_warm self cuisine count g ds :
  Dict.get cuisine (dishes_by_cuisine self) = Some ds →
  ds ≠ [] →
  (10 ≤ total_selections (user_preference self))%Z →
  let picks := high_frequency (dishes (user_preference self)) ds
               ++ low_frequency (dishes (user_preference self)) ds in
  get_recommendations_by_cuisine self cuisine count g
  = Returns (picks, update_recommendation_count self picks, g).
Proof.
  intros Hget Hne Hwarm. unfold get_recommendations_by_cuisine.
  rewrite Hget, decide_False by done. rewrite decide_False by lia.
  rewrite warm_returns, bind_returns. by rewrite take_warm_picks.
Qed.

(** A call always returns; it either leaves the system alone and returns
    nothing, or counts and saves exactly what it returns, which is taken
    out of the cuisine's list. *)
Lemma recommend_returns self cuisine count g :
  ∃ r s' g',
    get_recommendations_by_cuisine self cuisine count g = Returns (r, s', g')
    ∧ ((r = [] ∧ s' = self) ∨ s' = update_recommendation_count self r)
    ∧ ∃ ds rest, default [] (Dict.get cuisine (dishes_by_cuisine self)) = ds
                 ∧ ds ≡ₚ r ++ rest.
Proof.
  destruct (Dict.get cuisine (dishes_by_cuisine self)) as [ds|] eqn:Hget.
  - destruct (decide (ds = [])) as [->|Hne].
    + exists [], self, g. unfold get_recommendations_by_cuisine.
      rewrite Hget. simpl. split; [done |]. split; [by left |].
      by exists [], [].
    + destruct (decide (total_selections (user_preference self) < 10)%Z)
        as [Hcold|Hwarm].
      * destruct (recommend_cold self cuisine count g ds Hget Hne Hcold)
          as (r & g' & Hc & ->).
        destruct (cold_start_returns (dishes (user_preference self)) ds count g)
          as (r' & g'' & rest & Hc' & Hperm).
        rewrite Hc in Hc'. injection Hc' as <- <-.
        exists r, (update_recommendation_count self r), g'.
        split; [done |]. split; [by right |]. by exists ds, rest.
      * rewrite (recommend_warm self cuisine count g ds Hget Hne) by lia.
        eexists _, _, g. split; [done |]. split; [by right |].
        eexists ds, _. split; [done |].
        symmetry. apply warm_picks_permutation.
  - rewrite recommend_unknown by done.
    exists [], self, g. split; [done |]. split; [by left |]. by exists [], [].
Qed.

(** The same, read from a run that returned. *)
Lemma recommend_inv self cuisine count g r s' g' :
  get_recommendations_by_cuisine self cuisine count g = Returns (r, s', g') →
  ((r = [] ∧ s' = self) ∨ s' = update_recommendation_count self r)
  ∧ ∃ rest, default [] (Dict.get cuisine (dishes_by_cuisine self)) ≡ₚ r ++ rest.
Proof.
  intros Hrun.
  destruct (recommend_returns self cuisine count g)
    as (r0 & s0 & g0 & Hrun' & Hstate & ds & rest & <- & Hperm).
  rewrite Hrun in Hrun'. injection Hrun' as <- <- <-. eauto.
Qed.

(** ** The concrete systems are reachable *)

Lemma default_system_reachable : reachable default_system.
Proof. apply reachable_first_run. Qed.

Lemma after_reset_reachable : reachable after_reset.
Proof. apply reachable_reset, default_system_reachable. Qed.

Lemma after_reset_and_choice_reachable : reachable after_reset_and_choice.
Proof. apply reachable_select, after_reset_reachable. Qed.

Lemma house_system_reachable n : reachable (house_system n).
Proof. apply reachable_first_run. Qed.

Lemma select_times_reachable n dish : ∀ s,
  reachable s → reachable (select_times n dish s).
Proof.
  induction n as [|n IH]; intros s Hs; simpl; [done |].
  by apply IH, reachable_select.
Qed.

(** * The claims *)

(** ** Cold start with at most [count] dishes *)

(** C1, as stated, fails: after a reset and the choice of the second Chinese
    dish, the first one has no entry and falls into the last priority list,
    so the two dishes come back in the reverse of the catalog order. *)
Lemma cold_start_not_in_catalog_order :
  reachable after_reset_and_choice
  ∧ Dict.get "Chinese Cuisine" (dishes_by_cuisine after_reset_and_choice)
    = Some ["Dumplings"; "Tomato and Egg Noodles"]
  ∧ (total_selections (user_preference after_reset_and_choice) < 10)%Z
  ∧ result_of (get_recommendations_by_cuisine
                 after_reset_and_choice "Chinese Cuisine" 5 [])
    = Some ["Tomato and Egg Noodles"; "Dumplings"].
Proof.
  split; [apply after_reset_and_choice_reachable |].
  by_evaluation.
Qed.

(** C1, amended: in the cold start, for a known cuisine with at most [count]
    dishes, the result is the concatenation of the three priority lists.  It
    is a rearrangement of the cuisine's dish list (every entry once), each
    priority list keeps the catalog order, and the result is the catalog
    order itself when every dish is in the first list. *)
Theorem cold_start_returns_all_by_priority self cuisine count g ds :
  Dict.get cuisine (dishes_by_cuisine self) = Some ds →
  (len ds ≤ count)%Z →
  (total_selections (user_preference self) < 10)%Z →
  let d := dishes (user_preference self) in
  let result := never_recommended d ds ++ recommended_not_selected d ds
                ++ other_dishes d ds in
  result_of (get_recommendations_by_cuisine self cuisine count g) = Some result
  ∧ result ≡ₚ ds
  ∧ sublist (never_recommended d ds) ds
  ∧ sublist (recommended_not_selected d ds) ds
  ∧ sublist (other_dishes d ds) ds
  ∧ (Forall (is_never_recommended d) ds → result = ds).
Proof.
  intros Hget Hle Hcold d result. repeat split.
  - destruct (decide (ds = [])) as [->|Hne].
    + unfold get_recommendations_by_cuisine. by rewrite Hget.
    + destruct (recommend_cold self cuisine count g ds Hget Hne Hcold)
        as (r & g' & Hc & ->).
      fold d in Hc. rewrite cold_start_all in Hc by done.
      by injection Hc as <- <-.
  - apply prioritized_permutation.
  - apply sublist_filter.
  - apply sublist_filter.
  - rewrite other_dishes_filter. apply sublist_filter.
  - intros Hall. unfold result.
    unfold never_recommended at 1. rewrite filter_all by done.
    unfold recommended_not_selected. rewrite filter_none.
    + rewrite other_dishes_filter, filter_none; [by rewrite app_nil_r |].
      eapply Forall_impl; [exact Hall | intros x Hx; tauto].
    + eapply Forall_impl; [exact Hall |].
      intros x Hx Hr. by eapply tiers_exclusive.
Qed.

Lemma cold_start_returns_all_by_priority_witness :
  result_of (get_recommendations_by_cuisine default_system "Chinese Cuisine" 5 [])
  = Some ["Dumplings"; "Tomato and Egg Noodles"].
Proof.
  apply (cold_start_returns_all_by_priority default_system "Chinese Cuisine" 5 []
           ["Dumplings"; "Tomato and Egg Noodles"]).
  - reflexivity.
  - vm_compute. congruence.
  - vm_compute. reflexivity.
Defined.

(** ** Cold start with more than [count] dishes *)

(** C2: on a first run over a menu with one cuisine of six dishes, every
    dish is in the first priority list; with [count = 5] four of them are
    sampled, one slot is kept for the other two lists, both are empty, and
    the call returns four dishes, whatever the random source delivers. *)
Theorem cold_start_one_short_of_count (g : Rng) :
  reachable (house_system 6)
  ∧ Dict.get "House" (dishes_by_cuisine (house_system 6))
    = Some ["d1"; "d2"; "d3"; "d4"; "d5"; "d6"]
  ∧ total_selections (user_preference (house_system 6)) = 0%Z
  ∧ ∃ r s' g',
      get_recommendations_by_cuisine (house_system 6) "House" 5 g
        = Returns (r, s', g')
      ∧ length r = 4.
Proof.
  split; [apply house_system_reachable |].
  split; [by vm_compute |]. split; [by vm_compute |].
  destruct (recommend_cold (house_system 6) "House" 5 g
              ["d1"; "d2"; "d3"; "d4"; "d5"; "d6"])
    as (r & g' & Hc & Hr); [by vm_compute | done | by vm_compute |].
  exists r, (update_recommendation_count (house_system 6) r), g'.
  split; [done |].
  destruct (cold_start_sampled (dishes (user_preference (house_system 6)))
              ["d1"; "d2"; "d3"; "d4"; "d5"; "d6"] 5 g)
    as (r' & g'' & rest & Hc' & _ & Hlen); [by vm_compute |].
  rewrite Hc in Hc'. injection Hc' as <- <-.
  rewrite decide_True in Hlen.
  - unfold len in Hlen. lia.
  - split; [by vm_compute |]. split; [by vm_compute | lia].
Qed.

(** In general the sampled result has [count] dishes, except that it has
    [count - 1] when the second and third priority lists are empty. *)
Lemma cold_start_sampled_length self cuisine count g ds r s' g' :
  Dict.get cuisine (dishes_by_cuisine self) = Some ds →
  (total_selections (user_preference self) < 10)%Z →
  (0 < count < len ds)%Z →
  get_recommendations_by_cuisine self cuisine count g = Returns (r, s', g') →
  let d := dishes (user_preference self) in
  len r = if decide (recommended_not_selected d ds = [] ∧ other_dishes d ds = [])
          then (count - 1)%Z else count.
Proof.
  intros Hget Hcold Hcount Hrun d.
  assert (Hne : ds ≠ []) by (intros ->; unfold len in Hcount; simpl in *; lia).
  destruct (recommend_cold self cuisine count g ds Hget Hne Hcold)
    as (r0 & g0 & Hc & Hr).
  rewrite Hrun in Hr. injection Hr as -> -> ->.
  destruct (cold_start_sampled d ds count g) as (r' & g'' & rest & Hc' & _ & Hlen);
    [lia |].
  fold d in Hc. rewrite Hc in Hc'. injection Hc' as <- <-.
  rewrite Hlen.
  destruct (decide (_ ∧ _ ∧ _)) as [(? & ? & ?)|Hn].
  - by rewrite decide_True.
  - rewrite decide_False by (intros [??]; apply Hn; repeat split; [done..|lia]).
    lia.
Qed.

(** ** The three priority lists *)




(** ** Warm phase *)

(** C4: with 10 or more selections recorded, a known cuisine with at least
    7 dishes yields exactly 7 dishes, a cuisine with fewer yields all it has
    (fewer than 7), and neither [count] nor the random source has any
    influence on the result. *)
Theorem warm_returns_seven self cuisine count g ds :
  Dict.get cuisine (dishes_by_cuisine self) = Some ds →
  (10 ≤ total_selections (user_preference self))%Z →
  ∃ r s',
    get_recommendations_by_cuisine self cuisine count g = Returns (r, s', g)
    ∧ (7 ≤ length ds → length r = 7)
    ∧ (length ds < 7 → length r = length ds)
    ∧ ∀ count' g',
        result_of (get_recommendations_by_cuisine self cuisine count' g')
        = Some r.
Proof.
  intros Hget Hwarm.
  destruct (decide (ds = [])) as [->|Hne].
  - exists [], self. unfold get_recommendations_by_cuisine. rewrite Hget.
    simpl. split; [done |]. split; [lia |]. done.
  - eexists _, _. split; [by apply (recommend_warm self cuisine count g ds) |].
    rewrite warm_picks_length. split; [lia |]. split; [lia |].
    intros count' g'.
    by rewrite (recommend_warm self cuisine count' g' ds).
Qed.

Lemma warm_returns_seven_witness :
  ∃ r s',
    get_recommendations_by_cuisine
      (select_times 10 "d3" (house_system 8)) "House" 5 [] = Returns (r, s', [])
    ∧ (7 ≤ 8 → length r = 7)
    ∧ (8 < 7 → length r = 8)
    ∧ ∀ count' g',
        result_of (get_recommendations_by_cuisine
                     (select_times 10 "d3" (house_system 8)) "House" count' g')
        = Some r.
Proof.
  apply (warm_returns_seven (select_times 10 "d3" (house_system 8)) "House" 5 []
           (numbered_dishes 8)).
  - vm_compute. reflexivity.
  - vm_compute. congruence.
Defined.

(** ** The effect of a recommendation on the store *)





(** ** Unknown cuisine *)

(** C6, as stated, fails: for a cuisine that is not in the catalog the call
    returns the empty list; nothing is raised. *)
Lemma unknown_cuisine_raises_nothing :
  Dict.get "Thai Cuisine" (dishes_by_cuisine default_system) = None
  ∧ get_recommendations_by_cuisine default_system "Thai Cuisine" 5 []
    = Returns ([], default_system, [])
  ∧ ∀ e, get_recommendations_by_cuisine default_system "Thai Cuisine" 5 []
         ≠ Raises e.
Proof.
  split; [reflexivity |].
  assert (H : get_recommendations_by_cuisine default_system "Thai Cuisine" 5 []
              = Returns ([], default_system, [])) by reflexivity.
  split; [exact H | intros e; rewrite H; discriminate].
Qed.

(** C6, amended: for a cuisine that is not in the catalog the call returns
    the empty list, as it does for a known cuisine without dishes, and
    leaves the whole system as it was: no counter changes and nothing is
    written to the file. *)
Theorem unknown_cuisine_returns_nothing self cuisine count g :
  Dict.get cuisine (dishes_by_cuisine self) = None →
  get_recommendations_by_cuisine self cuisine count g = Returns ([], self, g)
  ∧ ∀ known, Dict.get known (dishes_by_cuisine self) = Some [] →
             get_recommendations_by_cuisine self known count g
             = Returns ([], self, g).
Proof.
  intros Hnone. split; [by apply recommend_unknown |].
  intros known Hknown. unfold get_recommendations_by_cuisine.
  by rewrite Hknown.
Qed.

Lemma unknown_cuisine_returns_nothing_witness :
  get_recommendations_by_cuisine default_system "Thai Cuisine" 5 [4; 2]
  = Returns ([], default_system, [4; 2]).
Proof.
  apply (proj1 (unknown_cuisine_returns_nothing
                  default_system "Thai Cuisine" 5 [4; 2] eq_refl)).
Defined.

(** ** total_selections is the sum of the selection counts *)

Lemma totals_agree_empty : totals_agree empty_preference.
Proof. unfold totals_agree. simpl. by rewrite sum_selection_count_empty. Qed.

Lemma totals_agree_fresh all : totals_agree (fresh_preference all).
Proof.
  unfold totals_agree. simpl. symmetry. apply sum_selection_count_zero.
  intros k st Hk. by apply lookup_gset_to_gmap_Some in Hk as [_ <-].
Qed.

Lemma totals_agree_update_recommendation_count self l :
  totals_agree (user_preference self) →
  totals_agree (user_preference (update_recommendation_count self l)).
Proof.
  unfold totals_agree. simpl. intros ->. by rewrite count_recommendations_sum.
Qed.

Lemma totals_agree_recommend self cuisine count g r s' g' :
  totals_agree (user_preference self) →
  get_recommendations_by_cuisine self cuisine count g = Returns (r, s', g') →
  totals_agree (user_preference s').
Proof.
  intros Hinv Hrun.
  destruct (recommend_inv _ _ _ _ _ _ _ Hrun) as [[[_ ->]| ->] _]; [done |].
  by apply totals_agree_update_recommendation_count.
Qed.

Lemma totals_agree_update_user_preference self dish :
  totals_agree (user_preference self) →
  totals_agree (user_preference (update_user_preference self dish)).
Proof.
  unfold totals_agree, update_user_preference. intros Hinv.
  destruct (decide (dish ∈ all_dishes self)); [|done]. simpl.
  destruct (dishes (user_preference self) !! dish) as [st|] eqn:Hd.
  - rewrite Hd, sum_selection_count_insert. unfold stat_of. rewrite Hd.
    simpl. lia.
  - rewrite lookup_insert_eq, sum_selection_count_insert.
    unfold stat_of. rewrite lookup_insert_eq.
    rewrite sum_selection_count_insert_fresh by done. simpl. lia.
Qed.

Lemma totals_agree_reset self :
  totals_agree (user_preference (reset_user_preference self)).
Proof. apply totals_agree_empty. Qed.

Lemma load_menu_keeps_store records : ∀ s,
  user_preference (foldl load_menu_record s records) = user_preference s
  ∧ preference_file (foldl load_menu_record s records) = preference_file s.
Proof.
  induction records as [|[c x] records IH]; intros s; [done |].
  cbn [foldl]. destruct (IH (load_menu_record s (c, x))) as [-> ->]. done.
Qed.

Lemma load_menu_keeps_file self records :
  preference_file (load_menu self records) = preference_file self.
Proof. unfold load_menu. by destruct (load_menu_keeps_store records
  (mkSystem [] [] ∅ (user_preference self) (preference_file self))) as [_ ->].
Qed.

Lemma check_dish_exists_keeps_store self dish cuisine :
  user_preference (check_dish_exists self dish cuisine).2 = user_preference self
  ∧ preference_file (check_dish_exists self dish cuisine).2
    = preference_file self.
Proof.
  unfold check_dish_exists. destruct cuisine as [c|]; [|done].
  destruct (decide (c = "")); [done |].
  by destruct (Dict.getitem_default c (dishes_by_cuisine self)).
Qed.

(** What holds of every reachable system: the store in memory and every
    content written to the file have the right total. *)
Lemma reachable_totals_agree s :
  reachable s →
  totals_agree (user_preference s) ∧ Forall totals_agree (preference_file s).
Proof.
  assert (Hstart : ∀ file records,
    Forall totals_agree file →
    totals_agree (user_preference (start file records))
    ∧ Forall totals_agree (preference_file (start file records))).
  { intros file records Hfile. unfold start, load_user_preference.
    pose proof (load_menu_keeps_file
                  (mkSystem [] [] ∅ empty_preference file) records) as Hf.
    simpl in Hf. rewrite Hf.
    destruct (last file) as [p|] eqn:Hlast; simpl.
    - rewrite Hf. split; [|done].
      apply last_Some_elem_of in Hlast.
      by eapply Forall_forall in Hfile.
    - rewrite Hf. split; [apply totals_agree_fresh |].
      apply Forall_app. split; [done |].
      constructor; [apply totals_agree_fresh | done]. }
  induction 1 as [records | s records _ [_ IHf]
                 | s cuisine count g r s' g' _ [IHp IHf] Hrun
                 | s dish _ [IHp IHf] | s _ [IHp IHf]
                 | s dish cuisine _ [IHp IHf]].
  - by apply Hstart.
  - by apply Hstart.
  - split; [by eapply totals_agree_recommend |].
    destruct (recommend_inv _ _ _ _ _ _ _ Hrun) as [[[_ ->]| ->] _]; [done |].
    simpl. apply Forall_app. split; [done |].
    constructor; [|done].
    by apply (totals_agree_update_recommendation_count s r).
  - split; [by apply totals_agree_update_user_preference |].
    pose proof (totals_agree_update_user_preference s dish IHp) as Hnew.
    unfold update_user_preference in *.
    destruct (decide (dish ∈ all_dishes s)); [|done].
    simpl in *. apply Forall_app. split; [done |]. by constructor.
  - split; [apply totals_agree_reset |].
    simpl. apply Forall_app. split; [done |].
    constructor; [apply totals_agree_empty | done].
  - destruct (check_dish_exists_keeps_store s dish cuisine) as [-> ->]. done.
Qed.

(** C7: in every reachable system total_selections is the sum of the
    selection_count of all entries of the store, and each of a
    recommendation, a recorded selection and a reset preserves that
    equality. *)
Theorem total_selections_is_sum :
  (∀ s, reachable s → totals_agree (user_preference s))
  ∧ (∀ s cuisine count g r s' g',
       totals_agree (user_preference s) →
       get_recommendations_by_cuisine s cuisine count g = Returns (r, s', g') →
       totals_agree (user_preference s'))
  ∧ (∀ s dish,
       totals_agree (user_preference s) →
       totals_agree (user_preference (update_user_preference s dish)))
  ∧ (∀ s, totals_agree (user_preference (reset_user_preference s))).
Proof.
  split; [intros s Hs; by apply reachable_totals_agree |].
  split; [apply totals_agree_recommend |].
  split; [apply totals_agree_update_user_preference | apply totals_agree_reset].
Qed.

Lemma total_selections_is_sum_witness :
  totals_agree (user_preference (update_user_preference default_system "Sushi")).
Proof.
  apply (proj1 total_selections_is_sum).
  apply reachable_select, reachable_first_run.
Defined.

(** ** Recording a selection *)

(** C8: for a dish of [all_dishes], the entry of the dish (a zeroed one when
    there was none) gains one selection and keeps its recommendation_count,
    total_selections gains one, every other entry and the catalog are
    untouched, and the new store is written to the file; for any other dish
    the whole system is left as it was. *)
Theorem update_user_preference_spec self dish :
  (dish ∈ all_dishes self →
     let d := dishes (user_preference self) in
     let s' := update_user_preference self dish in
     dishes (user_preference s') !! dish
       = Some (mkDishStat (selection_count (stat_of d dish) + 1)
                          (recommendation_count (stat_of d dish)))
     ∧ (d !! dish = None →
        dishes (user_preference s') !! dish = Some (mkDishStat 1 0))
     ∧ (∀ other, other ≠ dish → dishes (user_preference s') !! other = d !! other)
     ∧ total_selections (user_preference s')
       = (total_selections (user_preference self) + 1)%Z
     ∧ preference_file s' = preference_file self ++ [user_preference s']
     ∧ cuisines s' = cuisines self
     ∧ dishes_by_cuisine s' = dishes_by_cuisine self
     ∧ all_dishes s' = all_dishes self)
  ∧ (dish ∉ all_dishes self → update_user_preference self dish = self).
Proof.
  unfold update_user_preference. split; intros Hin.
  - rewrite decide_True by done. simpl. unfold stat_of.
    destruct (dishes (user_preference self) !! dish) as [st|] eqn:Hd; simpl.
    + rewrite Hd. rewrite lookup_insert_eq. split; [done |].
      split; [done |]. split; [|done].
      intros other Hne. by rewrite lookup_insert_ne.
    + rewrite !lookup_insert_eq. split; [done |]. split; [done |].
      split; [|done].
      intros other Hne. by rewrite !lookup_insert_ne.
  - by rewrite decide_False.
Qed.

Lemma update_user_preference_spec_witness :
  dishes (user_preference (update_user_preference after_reset "Sushi")) !! "Sushi"
    = Some (mkDishStat 1 0)
  ∧ update_user_preference default_system "Pizza" = default_system.
Proof.
  split.
  - apply (proj1 (update_user_preference_spec after_reset "Sushi")).
    + vm_compute. reflexivity.
    + reflexivity.
  - apply (proj2 (update_user_preference_spec default_system "Pizza")).
    vm_compute. intros H. discriminate H.
Defined.

(** ** The catalog under the operations *)

Lemma recommend_keeps_catalog self cuisine count g r s' g' :
  get_recommendations_by_cuisine self cuisine count g = Returns (r, s', g') →
  cuisines s' = cuisines self
  ∧ dishes_by_cuisine s' = dishes_by_cuisine self
  ∧ all_dishes s' = all_dishes self.
Proof.
  intros Hrun.
  by destruct (recommend_inv _ _ _ _ _ _ _ Hrun) as [[[_ ->]| ->] _].
Qed.

Lemma update_user_preference_keeps_catalog self dish :
  cuisines (update_user_preference self dish) = cuisines self
  ∧ dishes_by_cuisine (update_user_preference self dish) = dishes_by_cuisine self
  ∧ all_dishes (update_user_preference self dish) = all_dishes self.
Proof. unfold update_user_preference. by destruct (decide _). Qed.

Lemma reset_keeps_catalog self :
  cuisines (reset_user_preference self) = cuisines self
  ∧ dishes_by_cuisine (reset_user_preference self) = dishes_by_cuisine self
  ∧ all_dishes (reset_user_preference self) = all_dishes self.
Proof. done. Qed.

(** [check_dish_exists] leaves the catalog alone when it is given no cuisine
    or a cuisine of the catalog ... *)
Lemma check_dish_exists_known self dish cuisine :
  (∀ c, cuisine = Some c → c ≠ "" →
        is_Some (Dict.get c (dishes_by_cuisine self))) →
  (check_dish_exists self dish cuisine).2 = self.
Proof.
  intros Hknown. unfold check_dish_exists.
  destruct cuisine as [c|]; [|done].
  destruct (decide (c = "")) as [|Hne]; [done |].
  destruct (Hknown c eq_refl Hne) as [ds Hds].
  unfold Dict.getitem_default. rewrite Hds. by destruct self.
Qed.

(** ... and adds any other cuisine to [dishes_by_cuisine], with no dish. *)
Lemma check_dish_exists_unknown self dish c :
  c ≠ "" →
  Dict.get c (dishes_by_cuisine self) = None →
  check_dish_exists self dish (Some c)
  = (false, with_dishes_by_cuisine self (dishes_by_cuisine self ++ [(c, [])])).
Proof.
  intros Hne Hnone. unfold check_dish_exists, Dict.getitem_default.
  rewrite decide_False by done. by rewrite Hnone.
Qed.

(** C9: asking the default system whether "Sushi" is a dish of
    "Thai Cuisine", which the menu does not have, returns [False] and leaves
    a fourth key "Thai Cuisine", with the empty list, in
    [dishes_by_cuisine]; [cuisines] and [all_dishes] are as before. *)
Theorem check_dish_exists_adds_cuisine :
  Dict.keys (dishes_by_cuisine default_system)
    = ["Chinese Cuisine"; "Western Cuisine"; "Japanese Cuisine"]
  ∧ (check_dish_exists default_system "Sushi" (Some "Thai Cuisine")).1 = false
  ∧ dishes_by_cuisine
      (check_dish_exists default_system "Sushi" (Some "Thai Cuisine")).2
    = [("Chinese Cuisine", ["Dumplings"; "Tomato and Egg Noodles"]);
       ("Western Cuisine", ["Steak"; "Spaghetti"]);
       ("Japanese Cuisine", ["Sushi"]);
       ("Thai Cuisine", [])]
  ∧ Dict.keys (dishes_by_cuisine
      (check_dish_exists default_system "Sushi" (Some "Thai Cuisine")).2)
    ≠ Dict.keys (dishes_by_cuisine default_system).
Proof.
  rewrite check_dish_exists_unknown by done.
  split; [reflexivity |]. split; [reflexivity |]. split; [reflexivity |].
  discriminate.
Qed.

(** ** Finding the cuisine of a dish *)

(** C10, as stated, fails: the query "sushi" finds "Japanese Cuisine", whose
    entry is spelled "Sushi"; no entry of the catalog is the string "sushi",
    so a comparison of exact entries with the lowercased query finds
    nothing. *)
Lemma lowercase_query_finds_capitalised_entry :
  get_cuisine_for_dish default_system "sushi" = Some "Japanese Cuisine"
  ∧ cuisine_for_dish_exact_vs_lowered (dishes_by_cuisine default_system) "sushi"
    = None
  ∧ get_cuisine_for_dish default_system "Sushi" = None.
Proof. by_evaluation. Qed.

(** C10, amended: [get_cuisine_for_dish] returns the first cuisine, in the
    order of [dishes_by_cuisine], whose dish list has an entry whose
    lowercased form ([str.lower] of the entry, whatever that function
    does) equals the query as given (the query is not lowercased), and
    returns [None] when no cuisine has such an entry. *)
Theorem get_cuisine_for_dish_spec (str_lower : string → string) self dish :
  match get_cuisine_for_dish_by str_lower self dish with
  | Some cuisine =>
      ∃ before menu after,
        dishes_by_cuisine self = before ++ (cuisine, menu) :: after
        ∧ (∃ menu_dish, menu_dish ∈ menu ∧ str_lower menu_dish = dish)
        ∧ Forall (λ item, ∀ menu_dish, menu_dish ∈ item.2 →
                          str_lower menu_dish ≠ dish) before
  | None =>
      Forall (λ item, ∀ menu_dish, menu_dish ∈ item.2 →
                      str_lower menu_dish ≠ dish)
             (dishes_by_cuisine self)
  end.
Proof.
  unfold get_cuisine_for_dish_by.
  induction (dishes_by_cuisine self) as [|[c menu] items IH]; simpl.
  - constructor.
  - destruct (decide (Exists (λ menu_dish, dish = str_lower menu_dish) menu))
      as [Hex|Hnex].
    + exists [], menu, items. split; [done |]. split; [|constructor].
      apply Exists_exists in Hex as (m & Hm & ->). eauto.
    + assert (Hhere : ∀ menu_dish, menu_dish ∈ menu → str_lower menu_dish ≠ dish).
      { intros m Hm Heq. apply Hnex, Exists_exists. eauto. }
      destruct (cuisine_for_dish_by str_lower items dish) as [c'|].
      * destruct IH as (before & menu' & after & -> & Hin & Hbefore).
        exists ((c, menu) :: before), menu', after.
        split; [done |]. split; [done |]. by constructor.
      * by constructor.
Qed.

Lemma get_cuisine_for_dish_spec_witness :
  ∃ before menu after,
    dishes_by_cuisine default_system = before ++ ("Western Cuisine", menu) :: after
    ∧ (∃ menu_dish, menu_dish ∈ menu ∧ lower menu_dish = "steak")
    ∧ Forall (λ item, ∀ menu_dish, menu_dish ∈ item.2 →
                      lower menu_dish ≠ "steak") before.
Proof. exact (get_cuisine_for_dish_spec lower default_system "steak"). Defined.

(** * Further properties of the code *)

(** ** Loading the menu *)

Example default_menu_file_first_line :
  strip ("True" +:+ newline) = "True" ∧ split_comma "True" = ["True"].
Proof. by_evaluation. Qed.

Example split_comma_examples :
  split_comma "a,b" = ["a"; "b"] ∧ split_comma "" = [""]
  ∧ split_comma ",a," = [""; "a"; ""].
Proof. by_evaluation. Qed.

Lemma Dict_get_append_to c k x d :
  Dict.get c (Dict.append_to k x d)
  = if decide (c = k) then Some (default [] (Dict.get k d) ++ [x])
    else Dict.get c d.
Proof.
  induction d as [|[k' v] d IH]; simpl.
  - by destruct (decide (c = k)).
  - destruct (decide (k = k')) as [->|Hk]; simpl.
    + by destruct (decide (c = k')).
    + rewrite IH. destruct (decide (c = k)) as [->|Hc]; [|done].
      by rewrite decide_False.
Qed.

Lemma Dict_get_None c d : Dict.get c d = None ↔ c ∉ Dict.keys d.
Proof.
  unfold Dict.keys. induction d as [|[k v] d IH]; simpl.
  - split; [intros _; apply not_elem_of_nil | done].
  - rewrite not_elem_of_cons. destruct (decide (c = k)) as [->|Hc].
    + split; [done | intros [? _]; done].
    + rewrite IH. tauto.
Qed.

Lemma Dict_get_is_Some c d : is_Some (Dict.get c d) ↔ c ∈ Dict.keys d.
Proof.
  rewrite <- not_eq_None_Some, Dict_get_None.
  destruct (decide (c ∈ Dict.keys d)); tauto.
Qed.

Lemma Dict_keys_append_to k x d :
  Dict.keys (Dict.append_to k x d)
  = if decide (k ∈ Dict.keys d) then Dict.keys d else Dict.keys d ++ [k].
Proof.
  unfold Dict.keys. induction d as [|[k' v] d IH]; [done |].
  cbn [Dict.append_to]. destruct (decide (k = k')) as [->|Hk].
  - rewrite !fmap_cons. simpl. rewrite decide_True; [done | left].
  - rewrite !fmap_cons, IH. simpl.
    destruct (decide (k ∈ d.*1)) as [Hin|Hin].
    + rewrite decide_True; [done | by right].
    + rewrite decide_False; [done |].
      rewrite not_elem_of_cons. done.
Qed.

Lemma Dict_get_app c d d' :
  Dict.get c (d ++ d')
  = match Dict.get c d with Some v => Some v | None => Dict.get c d' end.
Proof.
  induction d as [|[k v] d IH]; simpl; [done |].
  by destruct (decide (c = k)).
Qed.

Lemma load_menu_snoc self records record :
  load_menu self (records ++ [record])
  = load_menu_record (load_menu self records) record.
Proof. unfold load_menu. apply foldl_snoc. Qed.

Lemma load_menu_nil self :
  load_menu self []
  = mkSystem [] [] ∅ (user_preference self) (preference_file self).
Proof. reflexivity. Qed.

Lemma load_menu_keys self records :
  cuisines (load_menu self records)
    = Dict.keys (dishes_by_cuisine (load_menu self records))
  ∧ NoDup (cuisines (load_menu self records))
  ∧ ∀ c, c ∈ cuisines (load_menu self records) ↔ c ∈ records.*1.
Proof.
  induction records as [|[k x] records IH] using rev_ind.
  - rewrite load_menu_nil. simpl. split; [done |].
    split; [constructor | done].
  - rewrite load_menu_snoc. destruct IH as (Hkeys & Hnd & Hin).
    set (s := load_menu self records) in *. simpl.
    rewrite Dict_keys_append_to, <- Hkeys.
    destruct (decide (k ∈ cuisines s)) as [Hk|Hk].
    + split; [done |]. split; [done |].
      intros c. rewrite fmap_app, elem_of_app, Hin. simpl.
      rewrite list_elem_of_singleton. split; [tauto |].
      intros [?| ->]; [done | by apply Hin].
    + split; [done |]. split.
      * apply NoDup_app. split; [done |]. split; [|apply NoDup_singleton].
        intros c Hc ->%list_elem_of_singleton. done.
      * intros c. rewrite fmap_app, !elem_of_app, Hin. done.
Qed.

(** X1: after [load_menu], [cuisines] lists the keys of
    [dishes_by_cuisine] in the same order, without duplicates, and they are
    the cuisines of the records. *)
Theorem load_menu_cuisines self records :
  cuisines (load_menu self records)
    = Dict.keys (dishes_by_cuisine (load_menu self records))
  ∧ NoDup (cuisines (load_menu self records))
  ∧ ∀ c, c ∈ cuisines (load_menu self records) ↔ c ∈ records.*1.
Proof. apply load_menu_keys. Qed.

Lemma load_menu_get self records c :
  Dict.get c (dishes_by_cuisine (load_menu self records))
  = if decide (c ∈ records.*1)
    then Some (filter (λ r, r.1 = c) records).*2
    else None.
Proof.
  induction records as [|[k x] records IH] using rev_ind.
  - done.
  - rewrite load_menu_snoc.
    set (s := load_menu self records) in *. simpl.
    rewrite Dict_get_append_to, fmap_app, filter_app, fmap_app. simpl.
    rewrite filter_cons, filter_nil. simpl.
    destruct (decide (c = k)) as [->|Hc].
    + rewrite decide_True by (apply elem_of_app; right; left).
      rewrite (decide_True (P := k = k)) by done.
      rewrite IH. destruct (decide (k ∈ records.*1)) as [Hin|Hin]; [done |].
      rewrite filter_none; [done |].
      apply Forall_forall. intros r Hr Heq. apply Hin.
      apply list_elem_of_fmap. by exists r.
    + rewrite (decide_False (P := k = c)) by done. rewrite IH, app_nil_r.
      destruct (decide (c ∈ records.*1)) as [Hin|Hin].
      * rewrite decide_True; [done | apply elem_of_app; by left].
      * rewrite decide_False; [done |].
        rewrite elem_of_app, list_elem_of_singleton. tauto.
Qed.

(** X2: after [load_menu], the dish list of a cuisine is the dishes of the
    records of that cuisine, in the order of the records, repeated dishes
    included; a cuisine of no record is not a key. *)
Theorem load_menu_dishes self records c :
  Dict.get c (dishes_by_cuisine (load_menu self records))
  = if decide (c ∈ records.*1)
    then Some (filter (λ r, r.1 = c) records).*2
    else None.
Proof. apply load_menu_get. Qed.

Lemma load_menu_all_dishes_records self records dish :
  dish ∈ all_dishes (load_menu self records) ↔ dish ∈ records.*2.
Proof.
  induction records as [|[k x] records IH] using rev_ind.
  - rewrite load_menu_nil. simpl. rewrite elem_of_nil. set_solver.
  - rewrite load_menu_snoc. simpl.
    rewrite fmap_app, elem_of_app, elem_of_union, IH. simpl.
    rewrite list_elem_of_singleton, elem_of_singleton. tauto.
Qed.

Lemma load_menu_all_dishes_union self records dish :
  dish ∈ all_dishes (load_menu self records)
  ↔ ∃ c ds, Dict.get c (dishes_by_cuisine (load_menu self records)) = Some ds
            ∧ dish ∈ ds.
Proof.
  rewrite load_menu_all_dishes_records. split.
  - intros ([c x] & -> & Hin)%list_elem_of_fmap.
    exists c, (filter (λ r, r.1 = c) records).*2.
    rewrite load_menu_get. split.
    + rewrite decide_True; [done |].
      apply list_elem_of_fmap. by exists (c, x).
    + apply list_elem_of_fmap. exists (c, x). split; [done |].
      by apply list_elem_of_filter.
  - intros (c & ds & Hget & Hin). rewrite load_menu_get in Hget.
    destruct (decide (c ∈ records.*1)); [|done]. injection Hget as <-.
    apply list_elem_of_fmap in Hin as (r & -> & Hr%list_elem_of_filter).
    apply list_elem_of_fmap. exists r. tauto.
Qed.

(** X3: after [load_menu], [all_dishes] is the set of the dishes of the
    records, which is the union of the dish lists of all cuisines. *)
Theorem load_menu_all_dishes self records dish :
  (dish ∈ all_dishes (load_menu self records) ↔ dish ∈ records.*2)
  ∧ (dish ∈ all_dishes (load_menu self records)
     ↔ ∃ c ds, Dict.get c (dishes_by_cuisine (load_menu self records)) = Some ds
               ∧ dish ∈ ds).
Proof.
  split; [apply load_menu_all_dishes_records | apply load_menu_all_dishes_union].
Qed.

(** ** The menu file as text *)

Lemma list_ascii_of_string_app (a b : string) :
  list_ascii_of_string (a +:+ b)
  = list_ascii_of_string a ++ list_ascii_of_string b.
Proof. induction a as [|c a IH]; simpl; [done | by rewrite IH]. Qed.

Lemma string_of_list_ascii_app (l k : list ascii) :
  string_of_list_ascii (l ++ k)
  = string_of_list_ascii l +:+ string_of_list_ascii k.
Proof. induction l as [|c l IH]; simpl; [done | by rewrite IH]. Qed.

Lemma lstrip_chars_clean l :
  match l with [] => True | c :: _ => isspace c = false end →
  lstrip_chars l = l.
Proof. destruct l as [|c l]; simpl; [done |]. by intros ->. Qed.

(** A line made of a cuisine, a comma, a dish and the line end is stripped
    of its line end only. *)
Lemma strip_menu_line cuisine dish :
  starts_clean cuisine → ends_clean dish →
  strip (menu_line (cuisine, dish)) = cuisine +:+ "," +:+ dish.
Proof.
  unfold starts_clean, ends_clean, strip, menu_line, strip_chars. simpl.
  intros Hc Hd.
  rewrite !list_ascii_of_string_app. simpl.
  set (lc := list_ascii_of_string cuisine) in *.
  set (ld := list_ascii_of_string dish) in *.
  rewrite (lstrip_chars_clean (lc ++ _)) by (by destruct lc).
  rewrite reverse_app, reverse_cons, reverse_snoc. simpl.
  rewrite <- app_assoc. simpl.
  rewrite (lstrip_chars_clean (reverse ld ++ _)) by (by destruct (reverse ld)).
  rewrite reverse_app, reverse_cons, !reverse_involutive.
  rewrite <- app_assoc. simpl.
  rewrite string_of_list_ascii_app. simpl.
  unfold lc, ld. by rewrite !string_of_list_ascii_of_string.
Qed.

Lemma split_chars_no_comma l :
  filter (λ c, c = ","%char) l = [] → split_chars l = [l].
Proof.
  induction l as [|c l IH]; simpl; [done |].
  rewrite filter_cons. destruct (decide (c = ","%char)); [done |].
  intros Hl. by rewrite IH.
Qed.

Lemma split_chars_comma l k :
  filter (λ c, c = ","%char) l = [] →
  split_chars (l ++ ","%char :: k) = l :: split_chars k.
Proof.
  induction l as [|c l IH]; simpl; [done |].
  rewrite filter_cons. destruct (decide (c = ","%char)); [done |].
  intros Hl. by rewrite IH.
Qed.

Lemma split_chars_length l :
  length (split_chars l) = S (length (filter (λ c, c = ","%char) l)).
Proof.
  induction l as [|c l IH]; simpl; [done |].
  rewrite filter_cons. destruct (decide (c = ","%char)); simpl.
  - by rewrite IH.
  - destruct (split_chars l); simpl in *; [done | by rewrite <- IH].
Qed.

Lemma split_comma_length line : length (split_comma line) = S (commas line).
Proof. unfold split_comma, commas. by rewrite length_fmap, split_chars_length. Qed.

Lemma commas_zero s :
  commas s = 0 → filter (λ c, c = ","%char) (list_ascii_of_string s) = [].
Proof. unfold commas. by intros ?%nil_length_inv. Qed.

Lemma split_comma_record cuisine dish :
  commas cuisine = 0 → commas dish = 0 →
  split_comma (cuisine +:+ "," +:+ dish) = [cuisine; dish].
Proof.
  intros Hc%commas_zero Hd%commas_zero. unfold split_comma.
  rewrite list_ascii_of_string_app. simpl.
  rewrite split_chars_comma, split_chars_no_comma by done. simpl.
  by rewrite !string_of_list_ascii_of_string.
Qed.

Lemma load_menu_line_record self cuisine dish :
  commas cuisine = 0 → commas dish = 0 →
  starts_clean cuisine → ends_clean dish →
  load_menu_line self (menu_line (cuisine, dish))
  = Returns (load_menu_record self (cuisine, dish)).
Proof.
  intros Hc Hd Hsc Hed. unfold load_menu_line.
  rewrite strip_menu_line by done.
  rewrite decide_False by (by destruct cuisine).
  by rewrite split_comma_record.
Qed.

Lemma load_menu_lines_records records : ∀ self,
  Forall (λ r, commas r.1 = 0 ∧ commas r.2 = 0
               ∧ starts_clean r.1 ∧ ends_clean r.2) records →
  load_menu_lines self (menu_line <$> records)
  = Returns (foldl load_menu_record self records).
Proof.
  induction records as [|[c d] records IH]; intros self Hall; [done |].
  apply Forall_cons in Hall as [(Hc & Hd & Hsc & Hed) Hall].
  rewrite fmap_cons. cbn [load_menu_lines foldl].
  rewrite load_menu_line_record by done.
  rewrite bind_returns. by apply IH.
Qed.

(** X4: a menu written one record per line as "cuisine,dish" is read back as
    those records, provided cuisines and dishes are ASCII text without line
    break and without comma, no cuisine starts and no dish ends with white
    space; the start-up on such a menu file is the start-up on the
    records. *)
Theorem load_menu_file_round_trip self records file :
  Forall (λ r, plain_text r.1 ∧ plain_text r.2
               ∧ commas r.1 = 0 ∧ commas r.2 = 0
               ∧ starts_clean r.1 ∧ ends_clean r.2) records →
  load_menu_file self (menu_line <$> records) = Returns (load_menu self records)
  ∧ initialize (Some (menu_line <$> records)) file
    = Returns (start file records).
Proof.
  intros Hall.
  assert (Hall' : Forall (λ r, commas r.1 = 0 ∧ commas r.2 = 0
                               ∧ starts_clean r.1 ∧ ends_clean r.2) records).
  { eapply Forall_impl; [exact Hall |]. intros r (_ & _ & H). exact H. }
  unfold initialize, start, load_menu_file, load_menu. simpl.
  by rewrite !load_menu_lines_records.
Qed.

Lemma load_menu_file_round_trip_witness :
  load_menu_file default_system (menu_line <$> default_menu)
  = Returns (load_menu default_system default_menu).
Proof.
  apply (load_menu_file_round_trip default_system default_menu []).
  repeat constructor.
Defined.

Lemma load_menu_line_outcome self line :
  (strip line ≠ "" ∧ commas (strip line) ≠ 1
   ∧ load_menu_line self line = Raises ValueError)
  ∨ ((strip line = "" ∨ commas (strip line) = 1)
     ∧ ∃ self', load_menu_line self line = Returns self').
Proof.
  unfold load_menu_line.
  destruct (decide (strip line = "")) as [Hempty|Hne]; [right; eauto |].
  pose proof (split_comma_length (strip line)) as Hlen.
  destruct (split_comma (strip line)) as [|a [|b [|c parts]]]; simpl in Hlen.
  - done.
  - left. split; [done |]. split; [lia | done].
  - right. split; [right; lia | eauto].
  - left. split; [done |]. split; [lia | done].
Qed.

Lemma load_menu_lines_raises lines : ∀ self,
  load_menu_lines self lines = Raises ValueError
  ↔ Exists (λ line, strip line ≠ "" ∧ commas (strip line) ≠ 1) lines.
Proof.
  induction lines as [|line lines IH]; intros self; simpl.
  - split; [done | by intros ?%Exists_nil].
  - rewrite Exists_cons.
    destruct (load_menu_line_outcome self line)
      as [(Hne & Hc & ->)|(Hok & self' & ->)].
    + split; [by left | done].
    + rewrite bind_returns, IH. split; [by right |].
      intros [[Hne Hc]|?]; [|done]. destruct Hok; done.
Qed.

(** X5: on a menu file of ASCII text, [load_menu] raises [ValueError]
    exactly when some line that is not blank has no comma or more than
    one.  The first line that [create_default_menu] writes is such a line,
    so the start-up of a system that finds no menu file raises. *)
Theorem load_menu_file_raises self lines :
  (Forall file_line lines →
   (load_menu_file self lines = Raises ValueError
    ↔ Exists (λ line, strip line ≠ "" ∧ commas (strip line) ≠ 1) lines))
  ∧ ∀ file, initialize None file = Raises ValueError.
Proof.
  split; [intros _; apply load_menu_lines_raises |].
  intros file. unfold initialize, load_menu_file. simpl default.
  assert (H : ∀ s, load_menu_lines s default_menu_file = Raises ValueError).
  { intros s. apply load_menu_lines_raises. apply Exists_cons_hd.
    by vm_compute. }
  by rewrite H.
Qed.

(** ** The store of a reachable system *)

Lemma start_store file records :
  user_preference (start file records)
    = default (fresh_preference (all_dishes (load_menu
                 (mkSystem [] [] ∅ empty_preference file) records)))
              (last file)
  ∧ preference_file (start file records)
    = match last file with
      | Some _ => file
      | None => [fresh_preference (all_dishes (load_menu
                   (mkSystem [] [] ∅ empty_preference file) records))]
      end.
Proof.
  unfold start, load_user_preference.
  rewrite load_menu_keeps_file. simpl.
  destruct (last file) as [p|] eqn:Hlast; simpl.
  - by rewrite load_menu_keeps_file.
  - rewrite load_menu_keeps_file. simpl.
    by destruct file as [|? ?]; [|apply last_None in Hlast].
Qed.

Lemma start_catalog file records :
  let m := load_menu (mkSystem [] [] ∅ empty_preference file) records in
  cuisines (start file records) = cuisines m
  ∧ dishes_by_cuisine (start file records) = dishes_by_cuisine m
  ∧ all_dishes (start file records) = all_dishes m.
Proof.
  unfold start, load_user_preference.
  by destruct (last (preference_file _)).
Qed.

Section store_invariant.
Variable P : UserPreference → Prop.
Hypothesis P_fresh : ∀ all, P (fresh_preference all).
Hypothesis P_empty : P empty_preference.
Hypothesis P_count : ∀ p dish,
  P p →
  P (mkUserPreference (count_recommendation (dishes p) dish)
                      (total_selections p)).
Hypothesis P_select : ∀ s dish,
  P (user_preference s) → P (user_preference (update_user_preference s dish)).

Lemma P_update_recommendation_count self l :
  P (user_preference self) →
  P (user_preference (update_recommendation_count self l)).
Proof using P_count.
  simpl. destruct (user_preference self) as [d t]. simpl. clear self.
  revert d. induction l as [|dish l IH]; intros d Hp; simpl; [done |].
  apply IH. by apply (P_count (mkUserPreference d t)).
Qed.

(** A property of the store that the four ways of changing it establish or
    keep holds of the store, and of every content of the preference file,
    of every reachable system. *)
Lemma reachable_store_invariant s :
  reachable s → P (user_preference s) ∧ Forall P (preference_file s).
Proof using All.
  induction 1 as [records | s records _ [_ IHf]
                 | s cuisine count g r s' g' _ [IHp IHf] Hrun
                 | s dish _ [IHp IHf] | s _ [IHp IHf]
                 | s dish cuisine _ [IHp IHf]].
  - destruct (start_store [] records) as [-> ->]. simpl.
    split; [done | by constructor].
  - destruct (start_store (preference_file s) records) as [-> ->].
    destruct (last (preference_file s)) as [p|] eqn:Hlast; simpl.
    + split; [|done]. apply last_Some_elem_of in Hlast.
      by eapply Forall_forall in IHf.
    + split; [done | by constructor].
  - destruct (recommend_inv _ _ _ _ _ _ _ Hrun) as [[[_ ->]| ->] _]; [done |].
    pose proof (P_update_recommendation_count s r IHp) as Hnew.
    split; [done |]. simpl. apply Forall_app. split; [done |]. by constructor.
  - pose proof (P_select s dish IHp) as Hnew. split; [done |].
    unfold update_user_preference in *.
    destruct (decide (dish ∈ all_dishes s)); [|done].
    simpl in *. apply Forall_app. split; [done |]. by constructor.
  - split; [done |]. simpl. apply Forall_app. split; [done |]. by constructor.
  - destruct (check_dish_exists_keeps_store s dish cuisine) as [-> ->]. done.
Qed.
End store_invariant.

(** X6: on a first run (no preference file) the store has a zeroed entry
    for every dish of the menu and for nothing else, total_selections is 0,
    and that store is written to the file once. *)
Theorem first_run_store records dish :
  dishes (user_preference (start [] records)) !! dish
    = (if decide (dish ∈ records.*2) then Some zero_stat else None)
  ∧ total_selections (user_preference (start [] records)) = 0%Z
  ∧ preference_file (start [] records) = [user_preference (start [] records)].
Proof.
  destruct (start_store [] records) as [-> ->]. simpl.
  split; [|done]. rewrite lookup_gset_to_gmap.
  destruct (decide (dish ∈ records.*2)) as [Hin|Hin].
  - rewrite option_guard_True; [done |].
    by apply load_menu_all_dishes_records.
  - rewrite option_guard_False; [done |].
    by rewrite load_menu_all_dishes_records.
Qed.




Lemma update_user_preference_lookup self dish x :
  dish ∈ all_dishes self →
  dishes (user_preference (update_user_preference self dish)) !! x
  = if decide (x = dish)
    then Some (mkDishStat
                 (selection_count (stat_of (dishes (user_preference self)) dish) + 1)
                 (recommendation_count (stat_of (dishes (user_preference self)) dish)))
    else dishes (user_preference self) !! x.
Proof.
  intros Hin. unfold update_user_preference, stat_of.
  rewrite decide_True by done. simpl.
  destruct (dishes (user_preference self) !! dish) as [st|] eqn:Hd; simpl.
  - rewrite Hd. destruct (decide (x = dish)) as [->|Hne].
    + by rewrite lookup_insert_eq.
    + by rewrite lookup_insert_ne.
  - rewrite lookup_insert_eq. destruct (decide (x = dish)) as [->|Hne].
    + by rewrite lookup_insert_eq.
    + by rewrite !lookup_insert_ne.
Qed.

(** X8: in every reachable system total_selections and both counters of
    every entry of the store are non-negative. *)
Theorem counters_never_negative s dish st :
  reachable s →
  dishes (user_preference s) !! dish = Some st →
  (0 ≤ total_selections (user_preference s))%Z
  ∧ (0 ≤ selection_count st)%Z ∧ (0 ≤ recommendation_count st)%Z.
Proof.
  intros Hs Hst.
  destruct (reachable_store_invariant
    (λ p, (0 ≤ total_selections p)%Z
          ∧ ∀ dish st, dishes p !! dish = Some st →
              (0 ≤ selection_count st)%Z ∧ (0 ≤ recommendation_count st)%Z))
    with (s := s) as [[Htotal Hall] _]; [..| done |].
  - intros all. split; [done |]. intros x st' Hx. simpl in Hx.
    apply lookup_gset_to_gmap_Some in Hx as [_ <-]. done.
  - split; [done |]. intros x st' Hx. simpl in Hx. by rewrite lookup_empty in Hx.
  - intros p x [Ht Hp]. split; [done |]. intros y st' Hy. simpl in Hy.
    rewrite count_recommendation_lookup in Hy.
    apply fmap_Some in Hy as (st0 & Hst0 & ->). simpl.
    destruct (Hp y st0 Hst0). destruct (decide (x = y)); lia.
  - intros s0 x [Ht Hp]. unfold update_user_preference.
    destruct (decide (x ∈ all_dishes s0)) as [Hin|]; [|done].
    split; [simpl; lia |]. intros y st' Hy.
    pose proof (update_user_preference_lookup s0 x y Hin) as Hl.
    unfold update_user_preference in Hl. rewrite decide_True in Hl by done.
    rewrite Hl in Hy. destruct (decide (y = x)) as [->|Hne].
    + injection Hy as <-. simpl. unfold stat_of.
      destruct (dishes (user_preference s0) !! x) as [st0|] eqn:Hx; simpl.
      * destruct (Hp x st0 Hx). lia.
      * lia.
    + by eapply Hp.
  - split; [apply Htotal | by eapply Hall].
Qed.

Lemma counters_never_negative_witness :
  (0 ≤ total_selections (user_preference after_reset_and_choice))%Z
  ∧ (0 ≤ selection_count (mkDishStat 1 0))%Z
  ∧ (0 ≤ recommendation_count (mkDishStat 1 0))%Z.
Proof.
  apply (counters_never_negative after_reset_and_choice "Tomato and Egg Noodles").
  - apply reachable_select, reachable_reset, reachable_first_run.
  - vm_compute. reflexivity.
Defined.

(** X9: a recommendation, a recorded selection and a dish check never
    remove an entry of the store and never lower a counter or
    total_selections. *)
Theorem counters_never_decrease s s' dish st :
  counting_step s s' →
  dishes (user_preference s) !! dish = Some st →
  (total_selections (user_preference s) ≤ total_selections (user_preference s'))%Z
  ∧ ∃ st', dishes (user_preference s') !! dish = Some st'
           ∧ (selection_count st ≤ selection_count st')%Z
           ∧ (recommendation_count st ≤ recommendation_count st')%Z.
Proof.
  intros Hstep Hst.
  destruct Hstep as [s cuisine count g r s' g' Hrun | s x | s x cuisine].
  - destruct (recommend_inv _ _ _ _ _ _ _ Hrun) as [[[_ ->]| ->] _].
    + split; [lia | exists st; split; [done | lia]].
    + split; [simpl; lia |]. simpl.
      rewrite count_recommendations_lookup, Hst. simpl.
      eexists. split; [done |]. simpl.
      pose proof (occurrences_nonneg dish r). lia.
  - destruct (decide (x ∈ all_dishes s)) as [Hin|Hout].
    + split.
      { unfold update_user_preference. rewrite decide_True by done. simpl. lia. }
      rewrite update_user_preference_lookup by done.
      destruct (decide (dish = x)) as [->|Hne].
      * eexists. split; [done |]. unfold stat_of. rewrite Hst. simpl. lia.
      * exists st. split; [done | lia].
    + unfold update_user_preference. rewrite decide_False by done.
      split; [lia | exists st; split; [done | lia]].
  - destruct (check_dish_exists_keeps_store s x cuisine) as [-> _].
    split; [lia | exists st; split; [done | lia]].
Qed.

Lemma counters_never_decrease_witness :
  (total_selections (user_preference default_system)
   ≤ total_selections (user_preference (update_user_preference default_system "Sushi")))%Z
  ∧ ∃ st', dishes (user_preference (update_user_preference default_system "Sushi"))
             !! "Sushi" = Some st'
           ∧ (selection_count zero_stat ≤ selection_count st')%Z
           ∧ (recommendation_count zero_stat ≤ recommendation_count st')%Z.
Proof.
  apply (counters_never_decrease default_system
           (update_user_preference default_system "Sushi") "Sushi" zero_stat).
  - apply step_select.
  - vm_compute. reflexivity.
Defined.

(** ** The catalog of a reachable system *)

Lemma catalog_ok_load_menu self records : catalog_ok (load_menu self records).
Proof.
  destruct (load_menu_keys self records) as (_ & Hnd & Hin).
  split; [done |]. split.
  - intros c. rewrite Hin, load_menu_get. split.
    + intros Hc. rewrite decide_True by done. eexists. split; [done |].
      apply list_elem_of_fmap in Hc as ([c' x] & -> & Hr).
      intros Hnil%fmap_nil_inv.
      by eapply (filter_nil_not_elem_of _ _ (c', x)) in Hnil.
    + intros (ds & Hget & _). by destruct (decide (c ∈ records.*1)).
  - apply load_menu_all_dishes_union.
Qed.

Lemma catalog_ok_same s s' :
  cuisines s' = cuisines s →
  dishes_by_cuisine s' = dishes_by_cuisine s →
  all_dishes s' = all_dishes s →
  catalog_ok s → catalog_ok s'.
Proof. unfold catalog_ok. by intros -> -> ->. Qed.

Lemma catalog_ok_check_dish_exists s dish cuisine :
  catalog_ok s → catalog_ok (check_dish_exists s dish cuisine).2.
Proof.
  intros Hok. unfold check_dish_exists.
  destruct cuisine as [c|]; [|done].
  destruct (decide (c = "")); [done |].
  unfold Dict.getitem_default.
  destruct (Dict.get c (dishes_by_cuisine s)) as [ds|] eqn:Hget; simpl.
  - by destruct s.
  - destruct Hok as (Hnd & Hcuis & Hall). split; [done |].
    assert (Hnew : ∀ c' ds, Dict.get c' (dishes_by_cuisine s ++ [(c, [])]) = Some ds
              ↔ Dict.get c' (dishes_by_cuisine s) = Some ds
                ∨ (c' = c ∧ ds = [])).
    { intros c' ds. rewrite Dict_get_app. simpl.
      destruct (Dict.get c' (dishes_by_cuisine s)) as [v|] eqn:Hc'.
      - split; [by left |]. intros [?|[-> _]]; [done | congruence].
      - destruct (decide (c' = c)) as [->|Hne].
        + split; [intros [= <-]; by right | by intros [?|[_ ->]]].
        + split; [done | by intros [?|[? _]]]. }
    split; simpl.
    + intros c'. rewrite Hcuis. split.
      * intros (ds & Hg & Hne). exists ds. split; [|done]. apply Hnew. by left.
      * intros (ds & [Hg|[_ ->]]%Hnew & Hne); [eauto | done].
    + intros x. rewrite Hall. split.
      * intros (c' & ds & Hg & Hin). exists c', ds. split; [|done].
        apply Hnew. by left.
      * intros (c' & ds & [Hg|[_ ->]]%Hnew & Hin); [eauto |].
        by apply elem_of_nil in Hin.
Qed.

Lemma reachable_catalog_ok s : reachable s → catalog_ok s.
Proof.
  induction 1 as [records | s records _ _
                 | s cuisine count g r s' g' _ IH Hrun
                 | s dish _ IH | s _ IH | s dish cuisine _ IH].
  - destruct (start_catalog [] records) as (Hc & Hd & Ha).
    eapply catalog_ok_same; [done.. |]. apply catalog_ok_load_menu.
  - destruct (start_catalog (preference_file s) records) as (Hc & Hd & Ha).
    eapply catalog_ok_same; [done.. |]. apply catalog_ok_load_menu.
  - destruct (recommend_keeps_catalog _ _ _ _ _ _ _ Hrun) as (Hc & Hd & Ha).
    by eapply catalog_ok_same.
  - destruct (update_user_preference_keeps_catalog s dish) as (Hc & Hd & Ha).
    by eapply catalog_ok_same.
  - by eapply catalog_ok_same.
  - by apply catalog_ok_check_dish_exists.
Qed.

(** X10: in every reachable system [cuisines] has no duplicates and lists
    exactly the keys of [dishes_by_cuisine] that have at least one dish, and
    [all_dishes] is exactly the union of the dish lists. *)
Theorem catalog_well_formed s : reachable s → catalog_ok s.
Proof. apply reachable_catalog_ok. Qed.

Lemma catalog_well_formed_witness :
  catalog_ok (check_dish_exists default_system "Sushi" (Some "Thai Cuisine")).2.
Proof.
  apply catalog_well_formed.
  apply reachable_check_dish, reachable_first_run.
Defined.

(** X11: in a reachable system every dish that a recommendation returns is
    a dish of the asked cuisine and of [all_dishes], so recording it as the
    selection does count it: total_selections and the selection_count of
    the dish go up by one. *)
Theorem recommended_dish_can_be_selected s cuisine count g r s' g' dish :
  reachable s →
  get_recommendations_by_cuisine s cuisine count g = Returns (r, s', g') →
  dish ∈ r →
  (∃ ds, Dict.get cuisine (dishes_by_cuisine s) = Some ds ∧ dish ∈ ds)
  ∧ dish ∈ all_dishes s'
  ∧ total_selections (user_preference (update_user_preference s' dish))
    = (total_selections (user_preference s) + 1)%Z
  ∧ selection_count
      (stat_of (dishes (user_preference (update_user_preference s' dish))) dish)
    = (selection_count (stat_of (dishes (user_preference s)) dish) + 1)%Z.
Proof.
  intros Hs Hrun Hin.
  destruct (recommend_inv _ _ _ _ _ _ _ Hrun) as [Hstate [rest Hperm]].
  assert (Hds : ∃ ds, Dict.get cuisine (dishes_by_cuisine s) = Some ds ∧ dish ∈ ds).
  { destruct (Dict.get cuisine (dishes_by_cuisine s)) as [ds|]; simpl in Hperm.
    - exists ds. split; [done |]. rewrite Hperm. apply elem_of_app. by left.
    - apply Permutation_nil in Hperm.
      apply app_eq_nil in Hperm as [-> _]. by apply elem_of_nil in Hin. }
  split; [done |].
  destruct Hstate as [[-> _]| ->]; [by apply elem_of_nil in Hin |].
  destruct (reachable_catalog_ok s Hs) as (_ & _ & Hall).
  assert (Hdish : dish ∈ all_dishes s).
  { apply Hall. destruct Hds as (ds & ? & ?). eauto. }
  split; [done |]. split.
  - unfold update_user_preference. rewrite decide_True by done. done.
  - unfold stat_of at 1. rewrite update_user_preference_lookup by done.
    rewrite decide_True by done. simpl. unfold stat_of.
    rewrite !count_recommendations_lookup.
    by destruct (dishes (user_preference s) !! dish).
Qed.

Lemma recommended_dish_can_be_selected_witness :
  total_selections (user_preference
    (update_user_preference
       (update_recommendation_count default_system
          ["Dumplings"; "Tomato and Egg Noodles"]) "Dumplings"))
  = (total_selections (user_preference default_system) + 1)%Z.
Proof.
  apply (recommended_dish_can_be_selected default_system "Chinese Cuisine" 5 []
           ["Dumplings"; "Tomato and Egg Noodles"]
           (update_recommendation_count default_system
              ["Dumplings"; "Tomato and Egg Noodles"]) [] "Dumplings").
  - apply reachable_first_run.
  - vm_compute. reflexivity.
  - left.
Defined.

Lemma lower_idempotent s : lower (lower s) = lower s.
Proof.
  induction s as [|c s IH]; simpl; [done |]. rewrite IH. f_equal.
  revert c. by vm_compute; intros [[] [] [] [] [] [] [] []].
Qed.

(** X12: in a reachable system a name that is not spelled exactly as a
    cuisine of [cuisines] gets no recommendation and changes nothing, even
    when [check_cuisine_exists] accepts it, which it does exactly when
    [str.lower] (whatever that function does) maps the name and some
    cuisine of [cuisines] to the same string. *)
Theorem misspelled_cuisine_gets_nothing (str_lower : string → string)
    s cuisine count g :
  reachable s →
  cuisine ∉ cuisines s →
  get_recommendations_by_cuisine s cuisine count g = Returns ([], s, g)
  ∧ (check_cuisine_exists_by str_lower s cuisine = true
     ↔ ∃ c, c ∈ cuisines s ∧ str_lower c = str_lower cuisine).
Proof.
  intros Hs Hnot. split.
  - destruct (reachable_catalog_ok s Hs) as (_ & Hcuis & _).
    unfold get_recommendations_by_cuisine.
    destruct (Dict.get cuisine (dishes_by_cuisine s)) as [ds|] eqn:Hget; [|done].
    destruct (decide (ds = [])) as [|Hne]; [done |].
    exfalso. apply Hnot, Hcuis. eauto.
  - unfold check_cuisine_exists_by.
    rewrite bool_decide_eq_true, Exists_exists. done.
Qed.

Lemma misspelled_cuisine_gets_nothing_witness :
  get_recommendations_by_cuisine default_system "chinese cuisine" 5 []
    = Returns ([], default_system, [])
  ∧ (check_cuisine_exists default_system "chinese cuisine" = true
     ↔ ∃ c, c ∈ cuisines default_system ∧ lower c = lower "chinese cuisine").
Proof.
  apply (misspelled_cuisine_gets_nothing lower
           default_system "chinese cuisine" 5 []).
  - apply reachable_first_run.
  - vm_compute. intros H. repeat (inversion H as [|? ? ? H']; clear H; rename H' into H; subst).
Defined.

(** ** More on the cold start *)

Lemma cold_start_length d ds count g r g' :
  cold_start d ds count g = Returns (r, g') →
  (len r ≤ 0 `max` count)%Z.
Proof.
  intros Hc. destruct (decide (len ds ≤ count)%Z) as [Hle|Hgt].
  - rewrite cold_start_all in Hc by done. injection Hc as <- <-.
    rewrite prioritized_length. lia.
  - destruct (cold_start_sampled d ds count g) as (r' & g'' & rest & Hc' & _ & Hl);
      [lia |].
    rewrite Hc in Hc'. injection Hc' as <- <-. rewrite Hl.
    destruct (decide _) as [(_ & _ & ?)|_]; lia.
Qed.

(** X13: a recommendation never raises: every call of [random.sample] it
    makes asks for a number of dishes between 0 and the size of the list it
    samples.  What it returns is taken out of the cuisine's dish list, no
    entry of the list twice, so without repetition when the list has none;
    it has at most [count] dishes in the cold start and at most 7 after. *)
Theorem recommend_never_raises self cuisine count g :
  ∃ r s' g',
    get_recommendations_by_cuisine self cuisine count g = Returns (r, s', g')
    ∧ (∃ rest, default [] (Dict.get cuisine (dishes_by_cuisine self))
               ≡ₚ r ++ rest)
    ∧ (NoDup (default [] (Dict.get cuisine (dishes_by_cuisine self))) → NoDup r)
    ∧ (len r ≤ if decide (total_selections (user_preference self) < 10)%Z
               then 0 `max` count else 7)%Z.
Proof.
  destruct (recommend_returns self cuisine count g)
    as (r & s' & g' & Hrun & _ & ds & rest & Hds & Hperm).
  exists r, s', g'. split; [done |]. rewrite Hds.
  split; [by exists rest |]. split.
  { intros Hnd. rewrite Hperm in Hnd. by apply NoDup_app in Hnd as [? _]. }
  destruct (Dict.get cuisine (dishes_by_cuisine self)) as [ds'|] eqn:Hget;
    simpl in Hds; subst ds.
  - destruct (decide (ds' = [])) as [->|Hne].
    + apply Permutation_nil in Hperm. apply app_eq_nil in Hperm as [-> _].
      unfold len. simpl. destruct (decide _); lia.
    + destruct (decide (total_selections (user_preference self) < 10)%Z)
        as [Hcold|Hwarm].
      * destruct (recommend_cold self cuisine count g ds' Hget Hne Hcold)
          as (r0 & g0 & Hc & Hr).
        rewrite Hrun in Hr. injection Hr as -> _ ->.
        by eapply cold_start_length.
      * rewrite (recommend_warm self cuisine count g ds' Hget Hne) in Hrun by lia.
        injection Hrun as <- _ _. unfold len. rewrite warm_picks_length. lia.
  - apply Permutation_nil in Hperm. apply app_eq_nil in Hperm as [-> _].
    unfold len. simpl. destruct (decide _); lia.
Qed.

Lemma sample_prioritized_nothing nr rns other count g :
  (count ≤ 0)%Z → sample_prioritized nr rns other count g = Returns ([], g).
Proof.
  intros Hc. unfold sample_prioritized.
  pose proof (len_nonneg nr).
  rewrite decide_False by lia. rewrite bind_returns.
  rewrite decide_False by (unfold len; simpl; lia). rewrite bind_returns.
  rewrite decide_False by (unfold len; simpl; lia). done.
Qed.

(** X14: in the cold start, a call with [count <= 0] for a cuisine that has
    dishes returns no dish and draws nothing, and still writes the store,
    unchanged, to the preference file. *)
Theorem nonpositive_count_saves_nothing_new self cuisine count g ds :
  Dict.get cuisine (dishes_by_cuisine self) = Some ds →
  ds ≠ [] →
  (total_selections (user_preference self) < 10)%Z →
  (count ≤ 0)%Z →
  ∃ s', get_recommendations_by_cuisine self cuisine count g = Returns ([], s', g)
        ∧ user_preference s' = user_preference self
        ∧ preference_file s' = preference_file self ++ [user_preference self].
Proof.
  intros Hget Hne Hcold Hcount.
  destruct (recommend_cold self cuisine count g ds Hget Hne Hcold)
    as (r & g' & Hc & ->).
  unfold cold_start in Hc. rewrite prioritized_length in Hc.
  rewrite decide_False in Hc.
  - rewrite sample_prioritized_nothing in Hc by done. injection Hc as <- <-.
    eexists. split; [done |]. simpl.
    by destruct (user_preference self).
  - assert (0 < len ds)%Z by (unfold len; destruct ds; simpl; [done | lia]).
    lia.
Qed.

Lemma nonpositive_count_saves_nothing_new_witness :
  ∃ s', get_recommendations_by_cuisine default_system "Western Cuisine" 0 [1]
          = Returns ([], s', [1])
        ∧ user_preference s' = user_preference default_system
        ∧ preference_file s'
          = preference_file default_system ++ [user_preference default_system].
Proof.
  apply (nonpositive_count_saves_nothing_new default_system "Western Cuisine" 0 [1]
           ["Steak"; "Spaghetti"]).
  - reflexivity.
  - discriminate.
  - vm_compute. reflexivity.
  - lia.
Defined.

(** X15: in the cold start, when the cuisine has more than [count] dishes
    and fewer than [count] of them are in the first priority list, every
    dish of the first list is returned. *)
Theorem never_recommended_all_returned self cuisine count g ds r s' g' dish :
  Dict.get cuisine (dishes_by_cuisine self) = Some ds →
  (total_selections (user_preference self) < 10)%Z →
  (count < len ds)%Z →
  (len (never_recommended (dishes (user_preference self)) ds) < count)%Z →
  get_recommendations_by_cuisine self cuisine count g = Returns (r, s', g') →
  dish ∈ never_recommended (dishes (user_preference self)) ds →
  dish ∈ r.
Proof.
  intros Hget Hcold Hmore Hfew Hrun Hin.
  assert (Hne : ds ≠ []).
  { intros ->. pose proof (len_nonneg (never_recommended
      (dishes (user_preference self)) [])). unfold len in Hmore. simpl in *. lia. }
  destruct (recommend_cold self cuisine count g ds Hget Hne Hcold)
    as (r0 & g0 & Hc & Hr).
  rewrite Hrun in Hr. injection Hr as -> _ ->.
  unfold cold_start in Hc. rewrite prioritized_length in Hc.
  rewrite decide_False in Hc by lia.
  set (d := dishes (user_preference self)) in *.
  destruct (sample_prioritized_spec (never_recommended d ds)
              (recommended_not_selected d ds) (other_dishes d ds) count g)
    as (s1 & s2 & s3 & g1 & rest & Hs & _ & [r1 Hp1] & _ & _ & Hl1 & _).
  rewrite Hc in Hs. injection Hs as -> ->.
  assert (Hr1 : r1 = []).
  { apply len_zero_nil.
    assert (Hlen : len (never_recommended d ds) = (len s1 + len r1)%Z)
      by (rewrite <- len_app; unfold len; by rewrite Hp1).
    pose proof (len_nonneg (never_recommended d ds)). lia. }
  subst r1. rewrite app_nil_r in Hp1. rewrite Hp1 in Hin.
  apply elem_of_app. by left.
Qed.

Lemma never_recommended_all_returned_witness :
  "d1" ∈ ["d1"; "d2"].
Proof.
  apply (never_recommended_all_returned
           (update_recommendation_count (house_system 4) ["d2"; "d3"; "d4"])
           "House" 2 [] ["d1"; "d2"; "d3"; "d4"] ["d1"; "d2"]
           (update_recommendation_count
              (update_recommendation_count (house_system 4) ["d2"; "d3"; "d4"])
              ["d1"; "d2"]) [] "d1").
  - vm_compute. reflexivity.
  - vm_compute. reflexivity.
  - vm_compute. reflexivity.
  - vm_compute. reflexivity.
  - vm_compute. reflexivity.
  - vm_compute. left.
Defined.

(** X25: in the cold start, for a cuisine with more dishes than a positive
    [count], the result has exactly [count] dishes, except that it has
    [count - 1] when the second and the third priority list are both
    empty. *)
Theorem sampled_result_length self cuisine count g ds r s' g' :
  Dict.get cuisine (dishes_by_cuisine self) = Some ds →
  (total_selections (user_preference self) < 10)%Z →
  (0 < count < len ds)%Z →
  get_recommendations_by_cuisine self cuisine count g = Returns (r, s', g') →
  let d := dishes (user_preference self) in
  len r = if decide (recommended_not_selected d ds = [] ∧ other_dishes d ds = [])
          then (count - 1)%Z else count.
Proof. apply cold_start_sampled_length. Qed.

Lemma sampled_result_length_witness :
  len ["d1"; "d2"; "d3"; "d4"]
  = if decide (recommended_not_selected
                 (dishes (user_preference (house_system 6)))
                 ["d1"; "d2"; "d3"; "d4"; "d5"; "d6"] = []
               ∧ other_dishes (dishes (user_preference (house_system 6)))
                   ["d1"; "d2"; "d3"; "d4"; "d5"; "d6"] = [])
    then (5 - 1)%Z else 5%Z.
Proof.
  apply (sampled_result_length (house_system 6) "House" 5 []
           ["d1"; "d2"; "d3"; "d4"; "d5"; "d6"] ["d1"; "d2"; "d3"; "d4"]
           (update_recommendation_count (house_system 6)
              ["d1"; "d2"; "d3"; "d4"]) []).
  - vm_compute. reflexivity.
  - vm_compute. reflexivity.
  - vm_compute. split; reflexivity.
  - vm_compute. reflexivity.
Defined.

(** ** The ranking of the warm phase *)

Lemma all_cuisine_dishes_stats d ds x :
  x ∈ all_cuisine_dishes d ds → x.2 = stat_of d x.1.
Proof.
  unfold all_cuisine_dishes. rewrite sort_by_perm.
  by intros (dish & -> & _)%list_elem_of_fmap.
Qed.

Lemma remaining_dishes_stats d ds x :
  x ∈ remaining_dishes d ds → x.2 = stat_of d x.1.
Proof.
  unfold remaining_dishes. rewrite sort_by_perm.
  intros Hx. apply (all_cuisine_dishes_stats d ds).
  rewrite <- (take_drop 2 (all_cuisine_dishes d ds)).
  apply elem_of_app. by right.
Qed.

Lemma take_two_picks d ds :
  take 2 (high_frequency d ds ++ low_frequency d ds) = high_frequency d ds.
Proof.
  pose proof (high_frequency_length d ds) as Hh.
  pose proof (low_frequency_length d ds) as Hl.
  rewrite take_app. destruct (decide (2 ≤ length ds)) as [Hn|Hn].
  - rewrite take_ge by lia.
    replace (2 - length (high_frequency d ds)) with 0 by lia.
    by rewrite take_0, app_nil_r.
  - rewrite take_ge by lia.
    assert (Hnil : low_frequency d ds = []) by (apply nil_length_inv; lia).
    by rewrite Hnil, take_nil, app_nil_r.
Qed.

Lemma drop_two_picks d ds :
  drop 2 (high_frequency d ds ++ low_frequency d ds) = low_frequency d ds.
Proof.
  pose proof (high_frequency_length d ds) as Hh.
  pose proof (low_frequency_length d ds) as Hl.
  rewrite drop_app. rewrite (drop_ge (high_frequency d ds)) by lia. simpl.
  destruct (decide (2 ≤ length ds)) as [Hn|Hn].
  - by replace (2 - length (high_frequency d ds)) with 0 by lia.
  - assert (Hnil : low_frequency d ds = []) by (apply nil_length_inv; lia).
    by rewrite Hnil, drop_nil.
Qed.

Lemma warm_result self cuisine count g ds r s' g' :
  Dict.get cuisine (dishes_by_cuisine self) = Some ds →
  (10 ≤ total_selections (user_preference self))%Z →
  get_recommendations_by_cuisine self cuisine count g = Returns (r, s', g') →
  r = high_frequency (dishes (user_preference self)) ds
      ++ low_frequency (dishes (user_preference self)) ds.
Proof.
  intros Hget Hwarm Hrun. destruct (decide (ds = [])) as [->|Hne].
  - unfold get_recommendations_by_cuisine in Hrun. rewrite Hget in Hrun.
    simpl in Hrun. by injection Hrun as <- _ _.
  - rewrite (recommend_warm self cuisine count g ds Hget Hne Hwarm) in Hrun.
    by injection Hrun as <- _ _.
Qed.

(** X16: in the warm phase the first two dishes returned are the two most
    selected of the cuisine: any other entry of the dish list has a lower
    selection_count, or the same one and a recommendation_count that is not
    lower (a dish without an entry counts as 0, 0). *)
Theorem warm_top_two_most_selected self cuisine count g ds r s' g' :
  Dict.get cuisine (dishes_by_cuisine self) = Some ds →
  (10 ≤ total_selections (user_preference self))%Z →
  get_recommendations_by_cuisine self cuisine count g = Returns (r, s', g') →
  ∃ others,
    ds ≡ₚ take 2 r ++ others
    ∧ ∀ a b, a ∈ take 2 r → b ∈ others →
        let sa := stat_of (dishes (user_preference self)) a in
        let sb := stat_of (dishes (user_preference self)) b in
        (selection_count sb < selection_count sa)%Z
        ∨ (selection_count sb = selection_count sa
           ∧ (recommendation_count sa ≤ recommendation_count sb)%Z).
Proof.
  intros Hget Hwarm Hrun.
  rewrite (warm_result _ _ _ _ _ _ _ _ Hget Hwarm Hrun), take_two_picks.
  set (d := dishes (user_preference self)).
  exists (drop 2 (all_cuisine_dishes d ds)).*1. split.
  - unfold high_frequency. rewrite <- fmap_app, take_drop.
    symmetry. apply all_cuisine_dishes_names.
  - intros a b (x & -> & Hx)%list_elem_of_fmap (y & -> & Hy)%list_elem_of_fmap.
    pose proof (sort_by_sorted by_selection
      ((λ dish, (dish, stat_of d dish)) <$> ds)) as Hsorted.
    fold (all_cuisine_dishes d ds) in Hsorted.
    rewrite <- (take_drop 2 (all_cuisine_dishes d ds)) in Hsorted.
    pose proof (StronglySorted_app_1_elem_of _ _ _ _ _ Hsorted Hx Hy) as Hle.
    rewrite <- (all_cuisine_dishes_stats d ds x)
      by (rewrite <- (take_drop 2 (all_cuisine_dishes d ds));
          apply elem_of_app; by left).
    rewrite <- (all_cuisine_dishes_stats d ds y)
      by (rewrite <- (take_drop 2 (all_cuisine_dishes d ds));
          apply elem_of_app; by right).
    unfold key_ordered, key_le, by_selection in Hle. simpl in *. lia.
Qed.

Lemma warm_top_two_most_selected_witness :
  ∃ others,
    numbered_dishes 8 ≡ₚ take 2 ["d3"; "d1"; "d2"; "d4"; "d5"; "d6"; "d7"] ++ others
    ∧ ∀ a b, a ∈ take 2 ["d3"; "d1"; "d2"; "d4"; "d5"; "d6"; "d7"] → b ∈ others →
        let d := dishes (user_preference (select_times 10 "d3" (house_system 8))) in
        (selection_count (stat_of d b) < selection_count (stat_of d a))%Z
        ∨ (selection_count (stat_of d b) = selection_count (stat_of d a)
           ∧ (recommendation_count (stat_of d a)
              ≤ recommendation_count (stat_of d b))%Z).
Proof.
  apply (warm_top_two_most_selected (select_times 10 "d3" (house_system 8))
           "House" 5 [] (numbered_dishes 8)
           ["d3"; "d1"; "d2"; "d4"; "d5"; "d6"; "d7"]
           (update_recommendation_count (select_times 10 "d3" (house_system 8))
              ["d3"; "d1"; "d2"; "d4"; "d5"; "d6"; "d7"]) []).
  - vm_compute. reflexivity.
  - vm_compute. congruence.
  - vm_compute. reflexivity.
Defined.

(** X17: in the warm phase the dishes returned after the first two are the
    least recommended of the rest: any entry of the dish list that is not
    returned has a higher recommendation_count, or the same one and a
    selection_count that is not higher. *)
Theorem warm_rest_least_recommended self cuisine count g ds r s' g' :
  Dict.get cuisine (dishes_by_cuisine self) = Some ds →
  (10 ≤ total_selections (user_preference self))%Z →
  get_recommendations_by_cuisine self cuisine count g = Returns (r, s', g') →
  ∃ left_out,
    ds ≡ₚ r ++ left_out
    ∧ ∀ a b, a ∈ drop 2 r → b ∈ left_out →
        let sa := stat_of (dishes (user_preference self)) a in
        let sb := stat_of (dishes (user_preference self)) b in
        (recommendation_count sa < recommendation_count sb)%Z
        ∨ (recommendation_count sa = recommendation_count sb
           ∧ (selection_count sb ≤ selection_count sa)%Z).
Proof.
  intros Hget Hwarm Hrun.
  rewrite (warm_result _ _ _ _ _ _ _ _ Hget Hwarm Hrun), drop_two_picks.
  set (d := dishes (user_preference self)).
  exists (drop 5 (remaining_dishes d ds)).*1. split.
  - symmetry. apply warm_picks_permutation.
  - intros a b (x & -> & Hx)%list_elem_of_fmap (y & -> & Hy)%list_elem_of_fmap.
    pose proof (sort_by_sorted by_recommendation
      (drop 2 (all_cuisine_dishes d ds))) as Hsorted.
    fold (remaining_dishes d ds) in Hsorted.
    rewrite <- (take_drop 5 (remaining_dishes d ds)) in Hsorted.
    pose proof (StronglySorted_app_1_elem_of _ _ _ _ _ Hsorted Hx Hy) as Hle.
    rewrite <- (remaining_dishes_stats d ds x)
      by (rewrite <- (take_drop 5 (remaining_dishes d ds));
          apply elem_of_app; by left).
    rewrite <- (remaining_dishes_stats d ds y)
      by (rewrite <- (take_drop 5 (remaining_dishes d ds));
          apply elem_of_app; by right).
    unfold key_ordered, key_le, by_recommendation in Hle. simpl in *. lia.
Qed.

Lemma warm_rest_least_recommended_witness :
  ∃ left_out,
    numbered_dishes 8 ≡ₚ ["d3"; "d1"; "d2"; "d4"; "d5"; "d6"; "d7"] ++ left_out
    ∧ ∀ a b, a ∈ drop 2 ["d3"; "d1"; "d2"; "d4"; "d5"; "d6"; "d7"] → b ∈ left_out →
        let d := dishes (user_preference (select_times 10 "d3" (house_system 8))) in
        (recommendation_count (stat_of d a) < recommendation_count (stat_of d b))%Z
        ∨ (recommendation_count (stat_of d a) = recommendation_count (stat_of d b)
           ∧ (selection_count (stat_of d b) ≤ selection_count (stat_of d a))%Z).
Proof.
  apply (warm_rest_least_recommended (select_times 10 "d3" (house_system 8))
           "House" 5 [] (numbered_dishes 8)
           ["d3"; "d1"; "d2"; "d4"; "d5"; "d6"; "d7"]
           (update_recommendation_count (select_times 10 "d3" (house_system 8))
              ["d3"; "d1"; "d2"; "d4"; "d5"; "d6"; "d7"]) []).
  - vm_compute. reflexivity.
  - vm_compute. congruence.
  - vm_compute. reflexivity.
Defined.

(** ** Entries of the store *)

(** X18: a recommendation never creates and never removes an entry of the
    store; on an empty store, as a reset leaves it, it changes nothing in
    the store, whatever it returns. *)
Theorem recommend_keeps_entries self cuisine count g r s' g' :
  get_recommendations_by_cuisine self cuisine count g = Returns (r, s', g') →
  dom (dishes (user_preference s')) = dom (dishes (user_preference self))
  ∧ (dishes (user_preference self) = ∅ →
     user_preference s' = user_preference self).
Proof.
  intros Hrun.
  destruct (recommend_inv _ _ _ _ _ _ _ Hrun) as [[[_ ->]| ->] _]; [done |].
  simpl. split.
  - apply set_eq. intros x. rewrite !elem_of_dom, count_recommendations_lookup.
    by rewrite fmap_is_Some.
  - intros Hempty. destruct (user_preference self) as [d t]. simpl in *.
    subst d. f_equal. apply map_eq. intros x.
    by rewrite count_recommendations_lookup, lookup_empty.
Qed.

Lemma recommend_keeps_entries_witness :
  dom (dishes (user_preference
         (update_recommendation_count after_reset
            ["Dumplings"; "Tomato and Egg Noodles"])))
  = dom (dishes (user_preference after_reset)).
Proof.
  apply (recommend_keeps_entries after_reset "Chinese Cuisine" 5 []
           ["Dumplings"; "Tomato and Egg Noodles"] _ []).
  vm_compute. reflexivity.
Defined.

(** [n] recorded selections of one dish. *)
Lemma select_times_counts n dish : ∀ s,
  dish ∈ all_dishes s →
  all_dishes (select_times n dish s) = all_dishes s
  ∧ total_selections (user_preference (select_times n dish s))
    = (total_selections (user_preference s) + Z.of_nat n)%Z
  ∧ stat_of (dishes (user_preference (select_times n dish s))) dish
    = mkDishStat
        (selection_count (stat_of (dishes (user_preference s)) dish) + Z.of_nat n)
        (recommendation_count (stat_of (dishes (user_preference s)) dish)).
Proof.
  induction n as [|n IH]; intros s Hin.
  - simpl. split; [done |]. split; [lia |].
    destruct (stat_of _ dish) as [a b]. simpl. f_equal. lia.
  - cbn [select_times].
    destruct (update_user_preference_keeps_catalog s dish) as (_ & _ & Hall).
    destruct (IH (update_user_preference s dish)) as (-> & -> & ->);
      [by rewrite Hall |].
    split; [done |]. split.
    + unfold update_user_preference. rewrite decide_True by done. simpl. lia.
    + unfold stat_of at 1 2. rewrite update_user_preference_lookup by done.
      rewrite decide_True by done. simpl. f_equal. lia.
Qed.

(** X19: [n] recorded selections of a dish of [all_dishes] raise
    total_selections and the selection_count of the dish by [n] and leave
    its recommendation_count; so ten of them on a first run end the cold
    start. *)
Theorem repeated_selection_counts n dish s :
  dish ∈ all_dishes s →
  total_selections (user_preference (select_times n dish s))
    = (total_selections (user_preference s) + Z.of_nat n)%Z
  ∧ stat_of (dishes (user_preference (select_times n dish s))) dish
    = mkDishStat
        (selection_count (stat_of (dishes (user_preference s)) dish) + Z.of_nat n)
        (recommendation_count (stat_of (dishes (user_preference s)) dish)).
Proof. intros Hin. by destruct (select_times_counts n dish s Hin) as (_ & ? & ?). Qed.

Lemma repeated_selection_counts_witness :
  total_selections (user_preference (select_times 10 "Sushi" default_system))
  = (total_selections (user_preference default_system) + Z.of_nat 10)%Z.
Proof.
  apply (repeated_selection_counts 10 "Sushi" default_system).
  vm_compute. reflexivity.
Defined.

(** ** The lookup helpers *)

Lemma cuisine_for_dish_in_lowercase items dish c :
  cuisine_for_dish_in items dish = Some c → ∃ menu_dish, dish = lower menu_dish.
Proof.
  unfold cuisine_for_dish_in.
  induction items as [|[c' menu] items IH]; simpl; [done |].
  destruct (decide _) as [Hex|_]; [|done].
  intros _. apply Exists_exists in Hex as (m & _ & ->). eauto.
Qed.

(** X20: [get_cuisine_for_dish] finds a cuisine only for a query that is
    all in lower case (unchanged by [lower]); a query with a capital
    letter, such as a dish spelled as the menu spells it, finds nothing. *)
Theorem get_cuisine_for_dish_lowercase_only self dish :
  (∀ c, get_cuisine_for_dish self dish = Some c → lower dish = dish)
  ∧ (lower dish ≠ dish → get_cuisine_for_dish self dish = None).
Proof.
  assert (H : ∀ c, get_cuisine_for_dish self dish = Some c → lower dish = dish).
  { intros c (m & ->)%cuisine_for_dish_in_lowercase. apply lower_idempotent. }
  split; [done |]. intros Hne.
  destruct (get_cuisine_for_dish self dish) as [c|] eqn:Hc; [|done].
  destruct Hne. by eapply H.
Qed.

Lemma get_cuisine_for_dish_lowercase_only_witness :
  get_cuisine_for_dish default_system "Steak" = None.
Proof.
  apply (proj2 (get_cuisine_for_dish_lowercase_only default_system "Steak")).
  vm_compute. congruence.
Defined.



(** X22: [check_dish_exists] answers for a non-empty cuisine name whether
    the dish is in the list of that cuisine ([False] for a cuisine that is
    not a key) and otherwise whether it is in [all_dishes]; it leaves
    [cuisines], [all_dishes], the store, the preference file and the dish
    list of every key as they were. *)
Theorem check_dish_exists_answer self dish cuisine :
  ((check_dish_exists self dish cuisine).1 = true
   ↔ match cuisine with
     | Some c =>
         if decide (c = "") then dish ∈ all_dishes self
         else ∃ ds, Dict.get c (dishes_by_cuisine self) = Some ds ∧ dish ∈ ds
     | None => dish ∈ all_dishes self
     end)
  ∧ cuisines (check_dish_exists self dish cuisine).2 = cuisines self
  ∧ all_dishes (check_dish_exists self dish cuisine).2 = all_dishes self
  ∧ user_preference (check_dish_exists self dish cuisine).2 = user_preference self
  ∧ preference_file (check_dish_exists self dish cuisine).2 = preference_file self
  ∧ ∀ c ds, Dict.get c (dishes_by_cuisine self) = Some ds →
            Dict.get c (dishes_by_cuisine (check_dish_exists self dish cuisine).2)
            = Some ds.
Proof.
  unfold check_dish_exists. destruct cuisine as [c|].
  - destruct (decide (c = "")) as [->|Hne].
    + simpl. by rewrite bool_decide_eq_true.
    + unfold Dict.getitem_default.
      destruct (Dict.get c (dishes_by_cuisine self)) as [ds|] eqn:Hget; simpl.
      * rewrite bool_decide_eq_true. split; [|done].
        split; [eauto | by intros (ds' & [= <-] & ?)].
      * split; [split; [done | by intros (? & ? & ?)] |].
        repeat split. intros c' ds Hc'. by rewrite Dict_get_app, Hc'.
  - simpl. by rewrite bool_decide_eq_true.
Qed.

(** ** [get_random_cuisines] *)

(** X23: [get_random_cuisines] returns the list [cuisines] itself when it
    has at most [count] entries, [count] of its entries (no entry twice)
    when it has more and [count] is not negative, and raises [ValueError]
    when [count] is negative. *)
Theorem get_random_cuisines_spec self count g :
  ((len (cuisines self) ≤ count)%Z →
   get_random_cuisines self count g = Returns (cuisines self, g))
  ∧ ((0 ≤ count < len (cuisines self))%Z →
     ∃ r g' rest, get_random_cuisines self count g = Returns (r, g')
                  ∧ len r = count ∧ cuisines self ≡ₚ r ++ rest
                  ∧ (NoDup (cuisines self) → NoDup r))
  ∧ ((count < 0)%Z → get_random_cuisines self count g = Raises ValueError).
Proof.
  unfold get_random_cuisines. split; [|split].
  - intros Hle. by rewrite decide_True.
  - intros Hc. rewrite decide_False by lia.
    rewrite random_sample_returns by lia.
    destruct (draw (Z.to_nat count) (cuisines self) g) as [r g'] eqn:Hd.
    destruct (random_sample_spec (cuisines self) count g r g')
      as [Hl [rest Hperm]].
    { rewrite random_sample_returns by lia. by rewrite Hd. }
    exists r, g', rest. split; [done |]. split; [done |]. split; [done |].
    intros Hnd. rewrite Hperm in Hnd. by apply NoDup_app in Hnd as [? _].
  - intros Hneg. pose proof (len_nonneg (cuisines self)).
    rewrite decide_False by lia. unfold random_sample.
    rewrite decide_True; [done | by left].
Qed.

Lemma get_random_cuisines_spec_witness :
  get_random_cuisines default_system 5 [2]
    = Returns (["Chinese Cuisine"; "Western Cuisine"; "Japanese Cuisine"], [2])
  ∧ get_random_cuisines default_system (-1) [2] = Raises ValueError.
Proof.
  split.
  - apply (proj1 (get_random_cuisines_spec default_system 5 [2])).
    vm_compute. congruence.
  - apply (proj2 (proj2 (get_random_cuisines_spec default_system (-1) [2]))).
    lia.
Defined.

(** ** Recommendations on an empty store and on a first run *)


Lemma tiers_empty_store ds :
  never_recommended ∅ ds = [] ∧ recommended_not_selected ∅ ds = []
  ∧ other_dishes ∅ ds = ds.
Proof.
  assert (Hnr : never_recommended ∅ ds = []).
  { apply filter_none, Forall_forall. intros x _.
    unfold is_never_recommended. rewrite lookup_empty. tauto. }
  assert (Hrns : recommended_not_selected ∅ ds = []).
  { apply filter_none, Forall_forall. intros x _.
    unfold is_recommended_not_selected. rewrite lookup_empty. tauto. }
  split; [done |]. split; [done |].
  rewrite other_dishes_filter. apply filter_all, Forall_forall. intros x _.
  unfold is_never_recommended, is_recommended_not_selected.
  rewrite lookup_empty. tauto.
Qed.

(** X24: on an empty store, as a reset leaves it, the cold start returns a
    cuisine of at most [count] dishes in catalog order, and exactly [count]
    dishes of a larger one when [count] is positive. *)
Theorem empty_store_recommendation self cuisine count g ds r s' g' :
  dishes (user_preference self) = ∅ →
  (total_selections (user_preference self) < 10)%Z →
  Dict.get cuisine (dishes_by_cuisine self) = Some ds →
  get_recommendations_by_cuisine self cuisine count g = Returns (r, s', g') →
  ((len ds ≤ count)%Z → r = ds)
  ∧ ((0 < count < len ds)%Z → len r = count).
Proof.
  intros Hempty Hcold Hget Hrun.
  destruct (tiers_empty_store ds) as (Hnr & Hrns & Hother).
  split.
  - intros Hle. destruct (decide (ds = [])) as [->|Hne].
    + unfold get_recommendations_by_cuisine in Hrun. rewrite Hget in Hrun.
      simpl in Hrun. by injection Hrun as <- _ _.
    + destruct (recommend_cold self cuisine count g ds Hget Hne Hcold)
        as (r0 & g0 & Hc & Hr).
      rewrite Hrun in Hr. injection Hr as -> _ ->.
      rewrite cold_start_all, Hempty, Hnr, Hrns, Hother in Hc by done.
      by injection Hc as <- _.
  - intros Hcount.
    rewrite (cold_start_sampled_length self cuisine count g ds r s' g')
      by done.
    rewrite Hempty, Hother. rewrite decide_False; [done |].
    intros [_ ->]. unfold len in Hcount. simpl in Hcount. lia.
Qed.

Lemma empty_store_recommendation_witness :
  ["Dumplings"; "Tomato and Egg Noodles"] = ["Dumplings"; "Tomato and Egg Noodles"]
  ∧ (len ["Dumplings"; "Tomato and Egg Noodles"] ≤ 5)%Z.
Proof.
  assert (Hle : (len ["Dumplings"; "Tomato and Egg Noodles"] ≤ 5)%Z)
    by (by vm_compute).
  split; [|exact Hle].
  refine (proj1 (empty_store_recommendation after_reset "Chinese Cuisine" 5 []
           ["Dumplings"; "Tomato and Egg Noodles"]
           ["Dumplings"; "Tomato and Egg Noodles"]
           (update_recommendation_count after_reset
              ["Dumplings"; "Tomato and Egg Noodles"]) [] _ _ _ _) Hle);
    by vm_compute.
Defined.

Lemma first_run_tiers records cuisine ds :
  Dict.get cuisine (dishes_by_cuisine (start [] records)) = Some ds →
  let d := dishes (user_preference (start [] records)) in
  never_recommended d ds = ds ∧ recommended_not_selected d ds = []
  ∧ other_dishes d ds = [].
Proof.
  intros Hget d.
  assert (Hall : Forall (is_never_recommended d) ds).
  { apply Forall_forall. intros x Hx. unfold is_never_recommended, d.
    destruct (start_store [] records) as [-> _]. simpl.
    destruct (start_catalog [] records) as (_ & Hd & _). rewrite Hd in Hget.
    rewrite lookup_gset_to_gmap, option_guard_True; [done |].
    apply load_menu_all_dishes_union. eauto. }
  split; [by apply filter_all |]. split.
  - apply filter_none. eapply Forall_impl; [exact Hall |].
    intros x Hx Hr. by eapply tiers_exclusive.
  - rewrite other_dishes_filter. apply filter_none.
    eapply Forall_impl; [exact Hall |]. intros x Hx. tauto.
Qed.

(** X26: on a first run every dish is in the first priority list, so a
    recommendation returns a cuisine of at most [count] dishes in catalog
    order, and [count - 1] dishes of a larger one when [count] is
    positive. *)
Theorem first_run_recommendation records cuisine count g ds r s' g' :
  Dict.get cuisine (dishes_by_cuisine (start [] records)) = Some ds →
  get_recommendations_by_cuisine (start [] records) cuisine count g
    = Returns (r, s', g') →
  ((len ds ≤ count)%Z → r = ds)
  ∧ ((0 < count < len ds)%Z → len r = (count - 1)%Z).
Proof.
  intros Hget Hrun.
  destruct (first_run_tiers records cuisine ds Hget) as (Hnr & Hrns & Hother).
  assert (Hcold : (total_selections (user_preference (start [] records)) < 10)%Z)
    by (by destruct (start_store [] records) as [-> _]).
  split.
  - intros Hle. destruct (decide (ds = [])) as [->|Hne].
    + unfold get_recommendations_by_cuisine in Hrun. rewrite Hget in Hrun.
      simpl in Hrun. by injection Hrun as <- _ _.
    + destruct (recommend_cold _ cuisine count g ds Hget Hne Hcold)
        as (r0 & g0 & Hc & Hr).
      rewrite Hrun in Hr. injection Hr as -> _ ->.
      rewrite cold_start_all, Hnr, Hrns, Hother, !app_nil_r in Hc by done.
      by injection Hc as <- _.
  - intros Hcount.
    rewrite (cold_start_sampled_length _ cuisine count g ds r s' g') by done.
    by rewrite Hrns, Hother, decide_True.
Qed.

Lemma first_run_recommendation_witness :
  len ["d1"; "d2"; "d3"; "d4"] = (5 - 1)%Z
  ∧ (0 < 5 < len (numbered_dishes 6))%Z.
Proof.
  assert (Hcount : (0 < 5 < len (numbered_dishes 6))%Z) by (by vm_compute).
  split; [|exact Hcount].
  refine (proj2 (first_run_recommendation (house_menu 6) "House" 5 []
           (numbered_dishes 6) ["d1"; "d2"; "d3"; "d4"]
           (update_recommendation_count (house_system 6)
              ["d1"; "d2"; "d3"; "d4"]) [] _ _) Hcount);
    by vm_compute.
Defined.

(** ** Concrete instances *)

Lemma load_menu_file_raises_witness :
  load_menu_file default_system
    ["Western Cuisine,Steak" +:+ newline; "Fish and Chips" +:+ newline]
  = Raises ValueError.
Proof.
  apply (proj1 (load_menu_file_raises default_system
    ["Western Cuisine,Steak" +:+ newline; "Fish and Chips" +:+ newline])).
  - repeat constructor.
    + exists "Western Cuisine,Steak". split; [reflexivity | by right].
    + exists "Fish and Chips". split; [reflexivity | by right].
  - apply Exists_cons_tl, Exists_cons_hd. by vm_compute.
Defined.

Lemma recommend_never_raises_witness :
  ∃ r s' g',
    get_recommendations_by_cuisine (house_system 6) "House" 5 [3; 0; 7; 1]
      = Returns (r, s', g')
    ∧ (∃ rest, default [] (Dict.get "House" (dishes_by_cuisine (house_system 6)))
               ≡ₚ r ++ rest)
    ∧ (NoDup (default [] (Dict.get "House" (dishes_by_cuisine (house_system 6))))
       → NoDup r)
    ∧ (len r ≤ if decide (total_selections (user_preference (house_system 6)) < 10)%Z
               then 0 `max` 5 else 7)%Z.
Proof. exact (recommend_never_raises (house_system 6) "House" 5 [3; 0; 7; 1]). Defined.

Lemma check_dish_exists_answer_witness :
  (check_dish_exists default_system "Sushi" (Some "Japanese Cuisine")).1 = true.
Proof.
  apply (proj1 (check_dish_exists_answer default_system "Sushi"
                  (Some "Japanese Cuisine"))).
  simpl. exists ["Sushi"]. split; [reflexivity | left].
Defined.
